(** * Forward-curve calibration script: Program.py

    A shallow embedding of [src/Program.py]: the [Convert] string
    dispatchers, the [VanillaSwap] wrapper with its two valuation methods,
    [ObjectiveFunction], and the module-level calibration set-up.

    Python [str] values are modelled as [string] and the theorems about them
    range over ASCII strings ([isascii]); Python [float] values are modelled
    as exact rationals [Q]. *)

From Stdlib Require Import ZArith QArith Qpower Lia Lqa Ascii String.
From stdpp Require Import base option list strings gmap.

Local Open Scope string_scope.
Local Open Scope Z_scope.

(** ** Python built-ins used by the script *)

Module Py.

(** The built-in exceptions the script can run into; [RuntimeError] is
    what the QuantLib binding raises when a library check fails. *)
Inductive Exception : Type :=
| IndexError | KeyError | ValueError | TypeError | AttributeError
| RuntimeError.

Inductive result (A : Type) : Type :=
| Return (a : A)
| Raise (e : Exception).
Arguments Return {A} a.
Arguments Raise {A} e.

Definition bind {A B} (m : result A) (k : A -> result B) : result B :=
  match m with
  | Return a => k a
  | Raise e => Raise e
  end.

Definition raises {A} (m : result A) : Prop := exists e, m = Raise e.

(** [o[i]] and [d[k]]: a missing index or key raises. *)
Definition getitem {A} (l : list A) (i : nat) : result A :=
  match l !! i with
  | Some a => Return a
  | None => Raise IndexError
  end.

Definition dict_getitem {A} (d : gmap string A) (k : string) : result A :=
  match d !! k with
  | Some a => Return a
  | None => Raise KeyError
  end.

Definition code (c : ascii) : N := N_of_ascii c.

Definition isascii_char (c : ascii) : bool := (code c <? 128)%N.
Definition islower_char (c : ascii) : bool :=
  ((97 <=? code c) && (code c <=? 122))%N.
Definition isupper_char (c : ascii) : bool :=
  ((65 <=? code c) && (code c <=? 90))%N.
Definition isdigit_char (c : ascii) : bool :=
  ((48 <=? code c) && (code c <=? 57))%N.

(** [str.isascii()] *)
Fixpoint isascii (s : string) : bool :=
  match s with
  | EmptyString => true
  | String c s' => isascii_char c && isascii s'
  end.

(** [str.upper()] on ASCII text: the 26 small letters move down by 32. *)
Definition upper_char (c : ascii) : ascii :=
  if islower_char c then ascii_of_N (code c - 32) else c.

Fixpoint upper (s : string) : string :=
  match s with
  | EmptyString => EmptyString
  | String c s' => String (upper_char c) (upper s')
  end.

(** [str.split(sep)] for a one-character separator: always at least one
    piece, empty pieces kept. *)
Fixpoint split (sep : ascii) (s : string) : list string :=
  match s with
  | EmptyString => [EmptyString]
  | String c s' =>
      if Ascii.eqb c sep then EmptyString :: split sep s'
      else match split sep s' with
           | h :: t => String c h :: t
           | [] => [String c EmptyString]
           end
  end.

(** The regular expression class [\w] on ASCII text: letters, digits and
    the underscore. *)
Definition is_word_char (c : ascii) : bool :=
  islower_char c || isupper_char c || isdigit_char c
  || Ascii.eqb c "_"%char.

(** The character class [[\w']] of the pattern in [to_date]. *)
Definition is_token_char (c : ascii) : bool :=
  is_word_char c || Ascii.eqb c "'"%char.

Definition flush (cur : string) : list string :=
  match cur with
  | EmptyString => []
  | _ => [cur]
  end.

(** [re.findall(r"[\w']+", s)]: the maximal runs of class characters, left
    to right; [cur] is the run being read. *)
Fixpoint findall_from (cur : string) (s : string) : list string :=
  match s with
  | EmptyString => flush cur
  | String c s' =>
      if is_token_char c then findall_from (cur +:+ String c EmptyString) s'
      else flush cur ++ findall_from EmptyString s'
  end.

Definition findall (s : string) : list string := findall_from EmptyString s.

Definition digit_value (c : ascii) : Z := Z.of_N (code c - 48).

(** Decimal digits with single underscores between digits, which is all
    [int()] accepts of a string that has neither blanks nor a sign (the
    interpreter's cap on the number of digits is left out). *)
Fixpoint int_from (acc : Z) (after_digit : bool) (s : string) : option Z :=
  match s with
  | EmptyString => if after_digit then Some acc else None
  | String c s' =>
      if isdigit_char c then int_from (10 * acc + digit_value c) true s'
      else if Ascii.eqb c "_"%char
           then (if after_digit then int_from acc false s' else None)
           else None
  end.

(** [int(s)] as [to_date] calls it: on a token of [findall], which holds no
    blank and no sign. *)
Definition int (s : string) : result Z :=
  match int_from 0 false s with
  | Some z => Return z
  | None => Raise ValueError
  end.

End Py.

Export Py.

#[global] Instance result_ret : MRet Py.result := @Py.Return.
#[global] Instance result_bind : MBind Py.result := fun A B k m => Py.bind m k.


(** ** The QuantLib objects the script builds

    QuantLib is the script's library, not part of the repository. Its plain
    data (enumerators, dates, periods, the objects the script constructs) is
    written out; what it computes from a curve, and which of its constructors
    may be called without arguments, is left to the interface
    [ql.Library]. *)

Module ql.

Inductive BusinessDayConvention : Type :=
| Following | ModifiedFollowing | Preceding | ModifiedPreceding | Unadjusted.

Inductive Calendar : Type := TARGET | UnitedStates | UnitedKingdom.

(** [ql.VanillaSwap.Payer] and [ql.VanillaSwap.Receiver] *)
Inductive SwapType : Type := Payer | Receiver.

Inductive Frequency : Type :=
| Daily | Weekly | Monthly | Quarterly | Semiannual | Annual.

(** [ql.DateGeneration.Backward] and [ql.DateGeneration.Forward] *)
Inductive DateGeneration : Type := Backward | Forward.

Inductive DayCounter : Type :=
| Actual360 | Actual365Fixed | ActualActual | Actual365NoLeap
| Business252 | OneDayCounter | SimpleDayCounter | Thirty360.

Inductive TimeUnit : Type := Days | Weeks | Months | Years.

Record Period : Type := mkPeriod { length : Z; units : TimeUnit }.

(** [ql.Period(frequency)] *)
Definition Period_of_frequency (f : Frequency) : Period :=
  match f with
  | Daily => mkPeriod 1 Days
  | Weekly => mkPeriod 1 Weeks
  | Monthly => mkPeriod 1 Months
  | Quarterly => mkPeriod 3 Months
  | Semiannual => mkPeriod 6 Months
  | Annual => mkPeriod 1 Years
  end.

(** The month enumerators are the integers 1 to 12. *)
Definition January := 1.
Definition February := 2.
Definition March := 3.
Definition April := 4.
Definition May := 5.
Definition June := 6.
Definition July := 7.
Definition August := 8.
Definition September := 9.
Definition October := 10.
Definition November := 11.
Definition December := 12.

(** Modelled from the spec: the [Date] entity of section 3 (year, month,
    day; a valid Gregorian date; a total order), which the script takes
    from the library. The library accepts the years 1901 to 2199. *)
Record Date : Type := mkDate { dayOfMonth : Z; month : Z; year : Z }.

#[global] Instance Date_eq_dec : EqDecision Date.
Proof. solve_decision. Defined.

(** Modelled from the spec: the Gregorian calendar behind [Date] (section 3),
    library code: leap years, month lengths, valid dates. *)
Definition isLeap (y : Z) : bool :=
  ((y mod 4 =? 0) && negb (y mod 100 =? 0)) || (y mod 400 =? 0).

(** Modelled from the spec: the length of month [m] of year [y] ([Date],
    section 3). *)
Definition monthLength (m y : Z) : Z :=
  if m =? 2 then (if isLeap y then 29 else 28)
  else if (m =? 4) || (m =? 6) || (m =? 9) || (m =? 11) then 30
  else 31.

(** Modelled from the spec: the [Date] invariant of section 3, a valid
    Gregorian date, within the years the library accepts. *)
Definition valid_ymd (d m y : Z) : bool :=
  (1901 <=? y) && (y <=? 2199) && (1 <=? m) && (m <=? 12)
  && (1 <=? d) && (d <=? monthLength m y).

(** Modelled from the spec: [ql.Date(d, m, y)], the constructor of the
    [Date] entity (section 3); it rejects what is not a date. *)
Definition new_Date (d m y : Z) : result Date :=
  if valid_ymd d m y then Return (mkDate d m y) else Raise RuntimeError.

(** Modelled from the spec: the total order of [Date] (section 3), through
    the day number of a date, counted from 1970-01-01. *)
Definition serial_ymd (d m y : Z) : Z :=
  let y' := if m <=? 2 then y - 1 else y in
  let era := y' / 400 in
  let yoe := y' - era * 400 in
  let mp := if m <=? 2 then m + 9 else m - 3 in
  let doy := (153 * mp + 2) / 5 + d - 1 in
  let doe := yoe * 365 + yoe / 4 - yoe / 100 + doy in
  era * 146097 + doe - 719468.

(** Modelled from the spec: the day number of a [Date] (section 3). *)
Definition serial (x : Date) : Z :=
  serial_ymd (dayOfMonth x) (month x) (year x).

(** Modelled from the spec: the [Date] (section 3) with a given day number;
    outside 1901..2199 it raises. *)
Definition of_serial (n : Z) : result Date :=
  let z := n + 719468 in
  let era := z / 146097 in
  let doe := z - era * 146097 in
  let yoe := (doe - doe / 1460 + doe / 36524 - doe / 146096) / 365 in
  let doy := doe - (365 * yoe + yoe / 4 - yoe / 100) in
  let mp := (5 * doy + 2) / 153 in
  let d := doy - (153 * mp + 2) / 5 + 1 in
  let m := if mp <? 10 then mp + 3 else mp - 9 in
  let y := yoe + era * 400 + (if m <=? 2 then 1 else 0) in
  new_Date d m y.

(** Modelled from the spec: the total order of [Date] (section 3). *)
Definition Date_ltb (a b : Date) : bool := serial a <? serial b.
Definition Date_leb (a b : Date) : bool := serial a <=? serial b.

(** Modelled from the spec: the day of the week of a [Date], for the
    calendar engine of section 4.1; 0 is Sunday, 6 is Saturday. *)
Definition weekday (x : Date) : Z := (serial x + 4) mod 7.
(** Modelled from the spec: Saturdays and Sundays (calendar engine, section
    4.1). *)
Definition isWeekend (x : Date) : bool :=
  (weekday x =? 0) || (weekday x =? 6).

(** Modelled from the spec: the position of a [Date] in its year, 1 for
    1 January (calendar engine, section 4.1). *)
Definition dayOfYear (x : Date) : Z :=
  serial x - serial_ymd 1 1 (year x) + 1.

(** Modelled from the spec: "is a month end" of the schedule generator
    (section 4.2). *)
Definition isEndOfMonth (x : Date) : bool :=
  dayOfMonth x =? monthLength (month x) (year x).

(** Modelled from the spec: Easter Monday as a day of the year (Gregorian
    computus), for the TARGET holiday rule of section 4.1. *)
Definition easterMonday (y : Z) : Z :=
  let a := y mod 19 in
  let b := y / 100 in
  let c := y mod 100 in
  let h := (19 * a + b - b / 4 - (b - (b + 8) / 25 + 1) / 3 + 15) mod 30 in
  let l := (32 + 2 * (b mod 4) + 2 * (c / 4) - h - c mod 4) mod 7 in
  let m := (a + 11 * h + 22 * l) / 451 in
  let mo := (h + l - 7 * m + 114) / 31 in
  let da := (h + l - 7 * m + 114) mod 31 + 1 in
  serial_ymd da mo y - serial_ymd 1 1 y + 2.

(** Modelled from the spec: the TARGET holiday rule of the calendar engine
    (section 4.1), which is library code: weekends, New Year's Day and
    Christmas Day; from 2000 on also Good Friday, Easter Monday, Labour Day
    and 26 December; and 31 December in 1998, 1999 and 2001. *)
Definition TARGET_isBusinessDay (x : Date) : bool :=
  let d := dayOfMonth x in
  let m := month x in
  let y := year x in
  let dd := dayOfYear x in
  let em := easterMonday y in
  negb (isWeekend x
        || ((d =? 1) && (m =? January))
        || ((dd =? em - 3) && (2000 <=? y))
        || ((dd =? em) && (2000 <=? y))
        || ((d =? 1) && (m =? May) && (2000 <=? y))
        || ((d =? 25) && (m =? December))
        || ((d =? 26) && (m =? December) && (2000 <=? y))
        || ((d =? 31) && (m =? December)
            && ((y =? 1998) || (y =? 1999) || (y =? 2001)))).

Inductive IborFamily : Type := USDLibor | Euribor.

(** Modelled from the spec: the [Curve] entity of section 3, an ordered
    sequence of (date, forward rate) knots with its base day count and base
    calendar; the object [ql.ForwardCurve(dates, forwards, dc, cal)] wrapped
    in its handle. *)
Record ForwardCurve : Type := mkForwardCurve {
  curve_dates : list Date;
  curve_forwards : list Q;
  curve_dayCounter : DayCounter;
  curve_calendar : Calendar }.

(** An ibor index object: family, tenor and the forwarding term structure it
    is linked to ([None] is the empty handle). *)
Record IborIndex : Type := mkIborIndex {
  family : IborFamily;
  tenor : Period;
  forwardingTermStructure : option ForwardCurve }.

(** [index.clone(h)]: the same index linked to [h]. *)
Definition clone (i : IborIndex) (h : ForwardCurve) : IborIndex :=
  mkIborIndex (family i) (tenor i) (Some h).

(** The instrument [ql.VanillaSwap(...)] with the pricing engine it was
    last given. *)
Record VanillaSwap : Type := mkVanillaSwap {
  swapType : SwapType;
  nominal : Q;
  fixedSchedule : list Date;
  fixedRate : Q;
  fixedDayCount : DayCounter;
  floatSchedule : list Date;
  iborIndex : IborIndex;
  spread : Q;
  floatingDayCount : DayCounter;
  pricingEngine : option ForwardCurve }.

(** [instrument.setPricingEngine(ql.DiscountingSwapEngine(h))] *)
Definition setPricingEngine (i : VanillaSwap) (h : ForwardCurve) : VanillaSwap :=
  mkVanillaSwap (swapType i) (nominal i) (fixedSchedule i) (fixedRate i)
    (fixedDayCount i) (floatSchedule i) (iborIndex i) (spread i)
    (floatingDayCount i) (Some h).

(** What the script asks of the library beyond plain data. Every theorem
    below holds for every implementation of this interface. *)
Class Library : Type := {
  (** [ql.Period(s)] for a string [s] such as ['3M'] *)
  Period_of_string : string -> result Period;
  (** the four constructors that not every release of the library lets the
      script call without arguments: [ql.UnitedStates()], [ql.ActualActual()]
      and [ql.Thirty360()] raise [TypeError] where the market or the
      convention has to be given, [ql.Actual365NoLeap()] raises
      [AttributeError] where the class is gone; [None] where the call
      returns *)
  UnitedStates_refused : option Exception;
  ActualActual_refused : option Exception;
  Actual365NoLeap_refused : option Exception;
  Thirty360_refused : option Exception;
  (** the holiday rules of the two calendars the reference run never uses *)
  UnitedStates_isBusinessDay : Date -> bool;
  UnitedKingdom_isBusinessDay : Date -> bool;
  (** whether [ql.ForwardCurve] accepts its arguments *)
  ForwardCurve_accepts : list Date -> list Q -> DayCounter -> Calendar -> bool;
  (** [instrument.NPV()] under the engine the instrument holds and the
      evaluation date the script sets once *)
  instrument_NPV : VanillaSwap -> result Q }.

(** A constructor called without arguments: the object, or the exception of
    a release that refuses the call. *)
Definition construct {A} (refused : option Exception) (a : A) : result A :=
  match refused with
  | None => Return a
  | Some e => Raise e
  end.

Section Engine.
Context `{Library}.

(** [ql.UnitedStates()] *)
Definition new_UnitedStates : result Calendar :=
  construct UnitedStates_refused UnitedStates.

(** [ql.ActualActual()] *)
Definition new_ActualActual : result DayCounter :=
  construct ActualActual_refused ActualActual.

(** [ql.Actual365NoLeap()] *)
Definition new_Actual365NoLeap : result DayCounter :=
  construct Actual365NoLeap_refused Actual365NoLeap.

(** [ql.Thirty360()] *)
Definition new_Thirty360 : result DayCounter :=
  construct Thirty360_refused Thirty360.

(** Modelled from the spec: [isBusinessDay(cal, date)] of section 4.1; the
    rules of the two calendars the reference run does not use are the
    library's. *)
Definition isBusinessDay (c : Calendar) (x : Date) : bool :=
  match c with
  | TARGET => TARGET_isBusinessDay x
  | UnitedStates => UnitedStates_isBusinessDay x
  | UnitedKingdom => UnitedKingdom_isBusinessDay x
  end.

(** Modelled from the spec: the number of days a [Date] can take; a search
    that walks day by day leaves the range, and raises, before it has made
    that many steps. *)
Definition date_span : positive :=
  Z.to_pos (serial_ymd 31 12 2199 - serial_ymd 1 1 1901 + 1).

(** Modelled from the spec: the search for a business day that section 4.1
    describes ("skipping non-business days"), library code. One turn of
    [while isHoliday(d): d += step]: the search is over ([inl]), with a
    business day or with the error of a date out of range, or it goes on
    from the next day ([inr]). *)
Definition roll_step (c : Calendar) (step : Z) (x : Date)
  : result Date + Date :=
  if isBusinessDay c x then inl (Return x)
  else match of_serial (serial x + step) with
       | Return y => inr y
       | Raise e => inl (Raise e)
       end.

(** Modelled from the spec: at most [n] turns of that loop, [n] in
    binary. *)
Fixpoint roll_for (n : positive) (c : Calendar) (step : Z) (x : Date)
  : result Date + Date :=
  match n with
  | xH => roll_step c step x
  | xO n' =>
      match roll_for n' c step x with
      | inl r => inl r
      | inr y => roll_for n' c step y
      end
  | xI n' =>
      match roll_step c step x with
      | inl r => inl r
      | inr y =>
          match roll_for n' c step y with
          | inl r => inl r
          | inr z => roll_for n' c step z
          end
      end
  end.

(** Modelled from the spec: the walk from [x] in steps of [step] days to the
    first business day (section 4.1). *)
Definition roll (c : Calendar) (step : Z) (x : Date) : result Date :=
  match roll_for date_span c step x with
  | inl r => r
  | inr _ => Raise RuntimeError
  end.

(** Modelled from the spec: the business-day adjustment of section 4.1
    ([BusinessDayAdjustment] in section 3), which is library code. The
    modified rules turn round when the walk leaves the month. *)
Definition adjust (c : Calendar) (conv : BusinessDayConvention) (x : Date)
  : result Date :=
  match conv with
  | Unadjusted => Return x
  | Following => roll c 1 x
  | ModifiedFollowing =>
      y ← roll c 1 x;
      if month y =? month x then Return y else roll c (-1) x
  | Preceding => roll c (-1) x
  | ModifiedPreceding =>
      y ← roll c (-1) x;
      if month y =? month x then Return y else roll c 1 x
  end.

(** Modelled from the spec: a date moved by a period (section 4.2, "stepping
    one period at a time"), library code. Months and years keep the day of
    the month, cut to the length of the month reached. *)
Definition plus_period (x : Date) (n : Z) (u : TimeUnit) : result Date :=
  match u with
  | Days => of_serial (serial x + n)
  | Weeks => of_serial (serial x + 7 * n)
  | Months =>
      let t := year x * 12 + (month x - 1) + n in
      let y := t / 12 in
      let m := t mod 12 + 1 in
      new_Date (Z.min (dayOfMonth x) (monthLength m y)) m y
  | Years =>
      let y := year x + n in
      new_Date (Z.min (dayOfMonth x) (monthLength (month x) y)) (month x) y
  end.

(** Modelled from the spec: [advance] over a period in days (section 4.1):
    [n] business days from [x], one day at a time. *)
Fixpoint advance_days (n : nat) (c : Calendar) (step : Z) (x : Date)
  : result Date :=
  match n with
  | O => Return x
  | S n' =>
      y ← of_serial (serial x + step);
      z ← roll c step y;
      advance_days n' c step z
  end.

(** Modelled from the spec: [advance(cal, date, period)] of section 4.1,
    which is library code, as the script calls it (rule [Following], no
    end-of-month alignment): a period in days counts business days, any
    other period is added to the date and the result adjusted. *)
Definition advance (c : Calendar) (x : Date) (p : Period) : result Date :=
  if length p =? 0 then adjust c Following x
  else match units p with
       | Days => advance_days (Z.abs_nat (length p)) c (Z.sgn (length p)) x
       | u => y ← plus_period x (length p) u; adjust c Following y
       end.

(** Modelled from the spec: the last day of the month of [x], for the
    month-end alignment of section 4.2. *)
Definition endOfMonth (x : Date) : Date :=
  mkDate (monthLength (month x) (year x)) (month x) (year x).

(** Modelled from the spec: one step of the schedule generator of section
    4.2. The [k]-th raw date from [seed] is [k] periods away; with [align]
    set (the end-of-month flag, and a start date that is a month end) a
    period of months or years lands on the last day of the month. *)
Definition raw_step (seed : Date) (p : Period) (align : bool) (k : Z)
  : result Date :=
  y ← plus_period seed (k * length p) (units p);
  match units p with
  | Days | Weeks => Return y
  | _ => Return (if align then endOfMonth y else y)
  end.

(** Modelled from the spec: the stepping loop of the schedule generator of
    section 4.2. The raw dates between [seed] and [exit], last generated
    first; [dir] is [-1] for backward and [1] for forward stepping. Every
    step moves at least a day, so [fuel] days are enough to pass [exit]. *)
Fixpoint raw_dates (fuel : nat) (dir : Z) (seed exit : Date) (p : Period)
    (align : bool) (k : Z) (acc : list Date) : result (list Date) :=
  match fuel with
  | O => Raise RuntimeError
  | S fuel' =>
      temp ← raw_step seed p align (dir * k);
      if (if dir <? 0 then Date_ltb temp exit else Date_ltb exit temp)
      then Return acc
      else raw_dates fuel' dir seed exit p align (k + 1)
             (if decide (head acc = Some temp) then acc else temp :: acc)
  end.

(** Modelled from the spec: the adjustment pass of the schedule generator of
    section 4.2; the last date goes by the rule given for the termination
    date. *)
Fixpoint adjust_all (c : Calendar) (conv termConv : BusinessDayConvention)
    (l : list Date) : result (list Date) :=
  match l with
  | [] => Return []
  | [x] => y ← adjust c termConv x; Return [y]
  | x :: l' =>
      y ← adjust c conv x; r ← adjust_all c conv termConv l'; Return (y :: r)
  end.

(** Modelled from the spec: the [Schedule] invariant of section 3, strictly
    increasing dates. *)
Fixpoint increasing (l : list Date) : bool :=
  match l with
  | x :: ((y :: _) as l') => Date_ltb x y && increasing l'
  | _ => true
  end.

(** Modelled from the spec: the schedule generator of section 4.2, which
    is library code ([ql.Schedule(start, end, tenor, calendar, convention,
    terminationConvention, rule, endOfMonth)]). The raw dates are stepped
    from the end back to the start ([Backward]) or from the start on to
    the end ([Forward]); the boundary the stepping does not hit is added
    as it is; every raw date, the two boundaries included, then goes
    through the business-day adjustment; dates that collapse are an
    error. With the end-of-month flag and a start date that is a month
    end, the stepped dates are month ends. *)
Definition Schedule (effectiveDate terminationDate : Date) (p : Period)
    (c : Calendar) (conv termConv : BusinessDayConvention)
    (rule : DateGeneration) (eom : bool) : result (list Date) :=
  if negb (Date_ltb effectiveDate terminationDate) || (length p <=? 0)
  then Raise RuntimeError
  else
    let fuel := Z.to_nat (serial terminationDate - serial effectiveDate + 1) in
    let align := eom && isEndOfMonth effectiveDate in
    raw ← match rule with
          | Backward =>
              l ← raw_dates fuel (-1) terminationDate effectiveDate p align 1
                    [terminationDate];
              Return (if decide (head l = Some effectiveDate) then l
                      else effectiveDate :: l)
          | Forward =>
              l ← raw_dates fuel 1 effectiveDate terminationDate p align 1
                    [effectiveDate];
              Return (rev (if decide (head l = Some terminationDate) then l
                           else terminationDate :: l))
          end;
    adj ← adjust_all c conv termConv raw;
    if increasing adj then Return adj else Raise RuntimeError.

(** [ql.ForwardCurve(dates, forwards, dc, cal)] in its handle, or the
    library's error. *)
Definition new_ForwardCurve (dates : list Date) (forwards : list Q)
    (dc : DayCounter) (c : Calendar) : result ForwardCurve :=
  if ForwardCurve_accepts dates forwards dc c
  then Return (mkForwardCurve dates forwards dc c)
  else Raise RuntimeError.

End Engine.

(** [ql.USDLibor(p)] and [ql.Euribor(p)]: an index linked to no curve; the
    library refuses a tenor in days. *)
Definition new_IborIndex (f : IborFamily) (p : Period) : result IborIndex :=
  match units p with
  | Days => Raise RuntimeError
  | _ => Return (mkIborIndex f p None)
  end.

(** [ql.USDLibor(p, h)]: the same constructor with the curve to link the
    index to. *)
Definition new_IborIndex_on (f : IborFamily) (p : Period) (h : ForwardCurve)
  : result IborIndex :=
  match units p with
  | Days => Raise RuntimeError
  | _ => Return (mkIborIndex f p (Some h))
  end.

End ql.


(** ** class Convert *)

Module Convert.

Definition monthDictionary : gmap string Z :=
  list_to_map
    [("01", ql.January); ("02", ql.February); ("03", ql.March);
     ("04", ql.April); ("05", ql.May); ("06", ql.June);
     ("07", ql.July); ("08", ql.August); ("09", ql.September);
     ("10", ql.October); ("11", ql.November); ("12", ql.December)].

(** The call evaluates its arguments left to right: day token, month
    token, year token. *)
Definition to_date (s : string) : result ql.Date :=
  let arr := findall s in
  a2 ← getitem arr 2; d ← int a2;
  a1 ← getitem arr 1; m ← dict_getitem monthDictionary a1;
  a0 ← getitem arr 0; y ← int a0;
  ql.new_Date d m y.

Section WithLibrary.
Context `{ql.Library}.

(** A dispatcher that falls off its last [if] returns Python's [None]:
    the outcome is [Return None], not an exception. *)
Definition to_businessDayConvention (s : string)
  : result (option ql.BusinessDayConvention) :=
  if String.eqb (upper s) "FOLLOWING" then Return (Some ql.Following)
  else if String.eqb (upper s) "MODIFIEDFOLLOWING" then Return (Some ql.ModifiedFollowing)
  else if String.eqb (upper s) "PRECEDING" then Return (Some ql.Preceding)
  else if String.eqb (upper s) "MODIFIEDPRECEDING" then Return (Some ql.ModifiedPreceding)
  else if String.eqb (upper s) "UNADJUSTED" then Return (Some ql.Unadjusted)
  else Return None.

(** A branch that calls a constructor the library refuses raises the
    library's exception. *)
Definition to_calendar (s : string) : result (option ql.Calendar) :=
  if String.eqb (upper s) "TARGET" then Return (Some ql.TARGET)
  else if String.eqb (upper s) "UNITEDSTATES"
  then c ← ql.new_UnitedStates; Return (Some c)
  else if String.eqb (upper s) "UNITEDKINGDOM" then Return (Some ql.UnitedKingdom)
  else Return None.

Definition to_swapType (s : string) : result (option ql.SwapType) :=
  if String.eqb (upper s) "PAYER" then Return (Some ql.Payer)
  else if String.eqb (upper s) "RECEIVER" then Return (Some ql.Receiver)
  else Return None.

Definition to_frequency (s : string) : result (option ql.Frequency) :=
  if String.eqb (upper s) "DAILY" then Return (Some ql.Daily)
  else if String.eqb (upper s) "WEEKLY" then Return (Some ql.Weekly)
  else if String.eqb (upper s) "MONTHLY" then Return (Some ql.Monthly)
  else if String.eqb (upper s) "QUARTERLY" then Return (Some ql.Quarterly)
  else if String.eqb (upper s) "SEMIANNUAL" then Return (Some ql.Semiannual)
  else if String.eqb (upper s) "ANNUAL" then Return (Some ql.Annual)
  else Return None.

Definition to_dateGenerationRule (s : string)
  : result (option ql.DateGeneration) :=
  if String.eqb (upper s) "BACKWARD" then Return (Some ql.Backward)
  else if String.eqb (upper s) "FORWARD" then Return (Some ql.Forward)
  else Return None.

Definition to_dayCounter (s : string) : result (option ql.DayCounter) :=
  if String.eqb (upper s) "ACTUAL360" then Return (Some ql.Actual360)
  else if String.eqb (upper s) "ACTUAL365FIXED" then Return (Some ql.Actual365Fixed)
  else if String.eqb (upper s) "ACTUALACTUAL"
  then d ← ql.new_ActualActual; Return (Some d)
  else if String.eqb (upper s) "ACTUAL365NOLEAP"
  then d ← ql.new_Actual365NoLeap; Return (Some d)
  else if String.eqb (upper s) "BUSINESS252" then Return (Some ql.Business252)
  else if String.eqb (upper s) "ONEDAYCOUNTER" then Return (Some ql.OneDayCounter)
  else if String.eqb (upper s) "SIMPLEDAYCOUNTER" then Return (Some ql.SimpleDayCounter)
  else if String.eqb (upper s) "THIRTY360"
  then d ← ql.new_Thirty360; Return (Some d)
  else Return None.

Definition to_iborIndex (s : string) : result (option ql.IborIndex) :=
  let s := split "." s in
  s0 ← getitem s 0;
  if String.eqb (upper s0) "USDLIBOR"
  then s1 ← getitem s 1; p ← ql.Period_of_string s1;
       i ← ql.new_IborIndex ql.USDLibor p; Return (Some i)
  else
    s0 ← getitem s 0;
    if String.eqb (upper s0) "EURIBOR"
    then s1 ← getitem s 1; p ← ql.Period_of_string s1;
         i ← ql.new_IborIndex ql.Euribor p; Return (Some i)
    else Return None.

End WithLibrary.

End Convert.

(** ** numpy on one-dimensional arrays of exact numbers *)

Module np.

Definition concatenate (parts : list (list Q)) : list Q := concat parts.

(** [np.diff(v)]: [v[i+1] - v[i]] *)
Fixpoint diff (v : list Q) : list Q :=
  match v with
  | a :: ((b :: _) as v') => (b - a)%Q :: diff v'
  | _ => []
  end.

(** [np.power(v, n)], elementwise *)
Definition power (v : list Q) (n : Z) : list Q := map (fun a => (a ^ n)%Q) v.

(** [v * c] for a scalar [c], elementwise *)
Definition times (v : list Q) (c : Q) : list Q := map (fun a => (a * c)%Q) v.

Definition sum (v : list Q) : Q := foldr Qplus 0%Q v.

(** [np.full(n, c)] *)
Definition full (n : nat) (c : Q) : list Q := replicate n c.

End np.

(** ** class VanillaSwap *)

Module VanillaSwap.

(** The attributes of a swap object. A string the [Convert] dispatcher did
    not know leaves [None] in the attribute; the calendars, conventions,
    rules and frequencies are past that, because the schedules were built
    from them. [instrument] does not exist before the first valuation. *)
Record t : Type := mk {
  ID : string;
  swapType : option ql.SwapType;
  nominal : Q;
  startDate : ql.Date;
  maturityDate : ql.Date;
  fixedLegFrequency : ql.Period;
  fixedLegCalendar : ql.Calendar;
  fixedLegConvention : ql.BusinessDayConvention;
  fixedLegDateGenerationRule : ql.DateGeneration;
  fixedLegRate : Q;
  fixedLegDayCount : option ql.DayCounter;
  fixedLegEndOfMonth : bool;
  floatingLegFrequency : ql.Period;
  floatingLegCalendar : ql.Calendar;
  floatingLegConvention : ql.BusinessDayConvention;
  floatingLegDateGenerationRule : ql.DateGeneration;
  floatingLegSpread : Q;
  floatingLegDayCount : option ql.DayCounter;
  floatingLegEndOfMonth : bool;
  floatingLegIborIndex : option ql.IborIndex;
  fixedLegSchedule : list ql.Date;
  floatingLegSchedule : list ql.Date;
  instrument : option ql.VanillaSwap }.

(** [self.floatingLegIborIndex = i] *)
Definition set_floatingLegIborIndex (self : t) (i : option ql.IborIndex) : t :=
  mk (ID self) (swapType self) (nominal self) (startDate self)
     (maturityDate self) (fixedLegFrequency self) (fixedLegCalendar self)
     (fixedLegConvention self) (fixedLegDateGenerationRule self)
     (fixedLegRate self) (fixedLegDayCount self) (fixedLegEndOfMonth self)
     (floatingLegFrequency self) (floatingLegCalendar self)
     (floatingLegConvention self) (floatingLegDateGenerationRule self)
     (floatingLegSpread self) (floatingLegDayCount self)
     (floatingLegEndOfMonth self) i
     (fixedLegSchedule self) (floatingLegSchedule self) (instrument self).

(** [self.instrument = v] *)
Definition set_instrument (self : t) (v : option ql.VanillaSwap) : t :=
  mk (ID self) (swapType self) (nominal self) (startDate self)
     (maturityDate self) (fixedLegFrequency self) (fixedLegCalendar self)
     (fixedLegConvention self) (fixedLegDateGenerationRule self)
     (fixedLegRate self) (fixedLegDayCount self) (fixedLegEndOfMonth self)
     (floatingLegFrequency self) (floatingLegCalendar self)
     (floatingLegConvention self) (floatingLegDateGenerationRule self)
     (floatingLegSpread self) (floatingLegDayCount self)
     (floatingLegEndOfMonth self) (floatingLegIborIndex self)
     (fixedLegSchedule self) (floatingLegSchedule self) v.

(** Handing [None] to the library where it wants an object. *)
Definition need {A} (o : option A) : result A :=
  match o with
  | Some a => Return a
  | None => Raise TypeError
  end.

(** A method runs on the object it is bound to: it yields a value or an
    exception, and the object as the call left it. *)
Definition method (A : Type) : Type := t -> result A * t.

Section WithLibrary.
Context `{ql.Library}.

Definition init (ID swapType : string) (nominal : Q)
    (startDate maturityDate : string)
    (fixedLegFrequency fixedLegCalendar fixedLegConvention
       fixedLegDateGenerationRule : string)
    (fixedLegRate : Q) (fixedLegDayCount : string) (fixedLegEndOfMonth : bool)
    (floatingLegFrequency floatingLegCalendar floatingLegConvention
       floatingLegDateGenerationRule : string)
    (floatingLegSpread : Q) (floatingLegDayCount : string)
    (floatingLegEndOfMonth : bool) (floatingLegIborIndex : string)
  : result t :=
  swapType' ← Convert.to_swapType swapType;
  startDate' ← Convert.to_date startDate;
  maturityDate' ← Convert.to_date maturityDate;
  fixedFreq ← Convert.to_frequency fixedLegFrequency;
  fixedLegFrequency' ← (f ← need fixedFreq; Return (ql.Period_of_frequency f));
  fixedLegCalendar' ← Convert.to_calendar fixedLegCalendar;
  fixedLegConvention' ← Convert.to_businessDayConvention fixedLegConvention;
  fixedLegDateGenerationRule' ← Convert.to_dateGenerationRule fixedLegDateGenerationRule;
  fixedLegDayCount' ← Convert.to_dayCounter fixedLegDayCount;
  floatFreq ← Convert.to_frequency floatingLegFrequency;
  floatingLegFrequency' ← (f ← need floatFreq; Return (ql.Period_of_frequency f));
  floatingLegCalendar' ← Convert.to_calendar floatingLegCalendar;
  floatingLegConvention' ← Convert.to_businessDayConvention floatingLegConvention;
  floatingLegDateGenerationRule' ← Convert.to_dateGenerationRule floatingLegDateGenerationRule;
  floatingLegDayCount' ← Convert.to_dayCounter floatingLegDayCount;
  floatingLegIborIndex' ← Convert.to_iborIndex floatingLegIborIndex;
  (* create fixed leg schedule *)
  fixedCal ← need fixedLegCalendar';
  fixedConv ← need fixedLegConvention';
  fixedRule ← need fixedLegDateGenerationRule';
  fixedLegSchedule' ← ql.Schedule startDate' maturityDate' fixedLegFrequency'
                        fixedCal fixedConv fixedConv fixedRule fixedLegEndOfMonth;
  (* create floating leg schedule *)
  floatCal ← need floatingLegCalendar';
  floatConv ← need floatingLegConvention';
  floatRule ← need floatingLegDateGenerationRule';
  floatingLegSchedule' ← ql.Schedule startDate' maturityDate' floatingLegFrequency'
                           floatCal floatConv floatConv floatRule floatingLegEndOfMonth;
  Return (mk ID swapType' nominal startDate' maturityDate'
            fixedLegFrequency' fixedCal fixedConv fixedRule
            fixedLegRate fixedLegDayCount' fixedLegEndOfMonth
            floatingLegFrequency' floatCal floatConv floatRule
            floatingLegSpread floatingLegDayCount' floatingLegEndOfMonth
            floatingLegIborIndex' fixedLegSchedule' floatingLegSchedule' None).

(** [ql.VanillaSwap(...)] from the attributes of [self]; an attribute
    left at [None] is refused by the library. *)
Definition new_instrument (self : t) : result ql.VanillaSwap :=
  ty ← need (swapType self);
  fdc ← need (fixedLegDayCount self);
  idx ← need (floatingLegIborIndex self);
  ldc ← need (floatingLegDayCount self);
  Return (ql.mkVanillaSwap ty (nominal self) (fixedLegSchedule self)
            (fixedLegRate self) fdc (floatingLegSchedule self) idx
            (floatingLegSpread self) ldc None).

(** The tail both valuation methods share: build the instrument, store
    it, pair it with the engine on [curve], ask for its value. *)
Definition price_with (curve : ql.ForwardCurve) : method Q :=
  fun self =>
    match new_instrument self with
    | Raise e => (Raise e, self)
    | Return i =>
        let i' := ql.setPricingEngine i curve in
        (ql.instrument_NPV i', set_instrument self (Some i'))
    end.

(** [args] is the pair of the forward dates and the market rates. *)
Definition NPV_calibration (x : list Q) (args : list ql.Date * list Q)
  : method Q :=
  fun self =>
    let x := np.concatenate [args.2; x] in
    match (dc ← need (floatingLegDayCount self);
           ql.new_ForwardCurve args.1 x dc (floatingLegCalendar self)) with
    | Raise e => (Raise e, self)
    | Return curve =>
        match floatingLegIborIndex self with
        | None => (Raise AttributeError, self)
        | Some i =>
            price_with curve
              (set_floatingLegIborIndex self (Some (ql.clone i curve)))
        end
    end.

Definition NPV (yieldTermStructureHandle : ql.ForwardCurve)
    (floatingLegIborIndex : ql.IborIndex) : method Q :=
  fun self =>
    price_with yieldTermStructureHandle
      (set_floatingLegIborIndex self
         (Some (ql.clone floatingLegIborIndex yieldTermStructureHandle))).

End WithLibrary.

End VanillaSwap.

(** ** The module-level script *)

(** [args] is the pair of the market rates and the scaling factor. *)
Definition ObjectiveFunction (x : list Q) (args : list Q * Q) : Q :=
  let x := np.concatenate [args.1; x] in
  np.sum (np.times (np.power (np.diff x) 2) args.2).

Definition swapIDs : list string :=
  ["2Y"; "3Y"; "4Y"; "5Y"; "6Y"; "7Y"; "8Y"; "9Y"; "10Y"; "12Y"; "15Y";
   "20Y"; "25Y"; "30Y"].

Definition maturities : list string :=
  ["2010-02-08"; "2011-02-07"; "2012-02-06"; "2013-02-06"; "2014-02-06";
   "2015-02-06"; "2016-02-08"; "2017-02-06"; "2018-02-06"; "2020-02-06";
   "2023-02-06"; "2028-02-07"; "2033-02-07"; "2038-02-08"].

Definition swapRates : list Q :=
  [0.02795; 0.03035; 0.03275; 0.03505; 0.03715; 0.03885; 0.04025; 0.04155;
   0.04265; 0.04435; 0.04615; 0.04755; 0.04805; 0.04815]%Q.

Definition initialMarketData : list Q :=
  [0.03145; 0.0279275; 0.0253077; 0.0249374]%Q.
Definition initialForwardGuesses : list Q := np.full 117 0.02%Q.
Definition scalingFactor : Q := 1000000.0%Q.

(** One entry of the [constraints] tuple. [fun_self] is the position, in
    [swaps], of the swap object whose bound method [NPV_calibration] the entry
    holds: the entries share the swap objects with the list. *)
Record Constraint : Type := mkConstraint {
  type : string;
  fun_self : nat;
  args : list ql.Date * list Q }.

(** The arguments of the [opt.minimize] call. *)
Record minimize : Type := mkMinimize {
  objective : list Q -> list Q * Q -> Q;
  x0 : list Q;
  objective_args : list Q * Q;
  method : string;
  options : gmap string Z;
  constraints : list Constraint }.

Section Script.
Context `{ql.Library}.

Definition swaps : result (list VanillaSwap.t) :=
  mapM (fun '(swapID, maturity, swapRate) =>
          VanillaSwap.init swapID "Payer" 1000000%Q "2008-02-06" maturity
            "Annual" "Target" "ModifiedFollowing" "Backward" swapRate
            "Actual360" false "Quarterly" "Target" "ModifiedFollowing"
            "Backward" 0.0%Q "Actual360" false "USDLibor.3M")
       (zip (zip swapIDs maturities) swapRates).

Definition today : result ql.Date := ql.new_Date 4 2 2008.

Definition settlementDate : result ql.Date :=
  t ← today; ql.advance ql.TARGET t (ql.mkPeriod 2 ql.Days).

Definition dates : result (list ql.Date) :=
  start ← settlementDate;
  stop ← ql.new_Date 6 2 2038;
  ql.Schedule start stop (ql.Period_of_frequency ql.Quarterly) ql.TARGET
    ql.ModifiedFollowing ql.ModifiedFollowing ql.Backward false.

(** The list comprehension over [swaps]. *)
Definition constraints_of (swaps : list VanillaSwap.t) (dates : list ql.Date)
  : list Constraint :=
  imap (fun k _ => mkConstraint "eq" k (dates, initialMarketData)) swaps.

Definition swapConstraints : result (list Constraint) :=
  sw ← swaps; d ← dates; Return (constraints_of sw d).

(** How the solver evaluates a constraint at [x]: it calls the bound
    method, which works on the swap object in the store. *)
Definition call (c : Constraint) (x : list Q) (store : list VanillaSwap.t)
  : result Q * list VanillaSwap.t :=
  match store !! fun_self c with
  | Some self =>
      let r := VanillaSwap.NPV_calibration x (args c) self in
      (r.1, <[fun_self c := r.2]> store)
  | None => (Raise IndexError, store)
  end.

(** [model = opt.minimize(...)]: what the solver is called with. *)
Definition model : result minimize :=
  cs ← swapConstraints;
  Return (mkMinimize ObjectiveFunction initialForwardGuesses
            (initialMarketData, scalingFactor) "SLSQP"
            {["maxiter" := 500]} cs).

End Script.

(** A library to run the script on: tenors of the form ['3M'] only, the
    four constructors refused as release 1.44 refuses them, weekends as the
    only holidays of the two unused calendars, curves accepted when dates
    and rates pair up, every instrument worth its nominal times the first
    forward rate of its engine's curve. *)
Definition sample_library : ql.Library := {|
  ql.Period_of_string s :=
    if String.eqb s "3M" then Return (ql.mkPeriod 3 ql.Months)
    else Raise RuntimeError;
  ql.UnitedStates_refused := Some TypeError;
  ql.ActualActual_refused := Some TypeError;
  ql.Actual365NoLeap_refused := Some AttributeError;
  ql.Thirty360_refused := Some TypeError;
  ql.UnitedStates_isBusinessDay x := negb (ql.isWeekend x);
  ql.UnitedKingdom_isBusinessDay x := negb (ql.isWeekend x);
  ql.ForwardCurve_accepts d f _ _ := Nat.eqb (List.length d) (List.length f);
  ql.instrument_NPV i :=
    match ql.pricingEngine i with
    | Some c => Return (ql.nominal i * hd 0 (ql.curve_forwards c))%Q
    | None => Raise RuntimeError
    end |}.

(** A library that tells the index families apart: as [sample_library],
    but an instrument is worth one on a USD Libor index and nothing on a
    Euribor index. *)
Definition family_priced_library : ql.Library := {|
  ql.Period_of_string := ql.Period_of_string (Library := sample_library);
  ql.UnitedStates_refused := Some TypeError;
  ql.ActualActual_refused := Some TypeError;
  ql.Actual365NoLeap_refused := Some AttributeError;
  ql.Thirty360_refused := Some TypeError;
  ql.UnitedStates_isBusinessDay x := negb (ql.isWeekend x);
  ql.UnitedKingdom_isBusinessDay x := negb (ql.isWeekend x);
  ql.ForwardCurve_accepts d f _ _ := Nat.eqb (List.length d) (List.length f);
  ql.instrument_NPV i :=
    match ql.pricingEngine i with
    | Some _ =>
        Return (match ql.family (ql.iborIndex i) with
                | ql.USDLibor => 1%Q
                | ql.Euribor => 0%Q
                end)
    | None => Raise RuntimeError
    end |}.

(** The swaps and the knot dates of the reference run. *)
Definition reference_swaps :=
  Eval vm_compute in
    match @swaps sample_library with Return l => l | Raise _ => [] end.

Definition reference_dates :=
  Eval vm_compute in
    match @dates sample_library with Return l => l | Raise _ => [] end.

(** ** Vocabulary of the properties *)

(** Two characters that differ at most in the case of an ASCII letter. *)
Definition case_variant (a b : ascii) : Prop :=
  (code a = code b
   \/ (97 <= code a <= 122 /\ code a = code b + 32)
   \/ (97 <= code b <= 122 /\ code b = code a + 32))%N.

(** Two strings that are equal up to letter casing. *)
Fixpoint same_up_to_case (s1 s2 : string) : Prop :=
  match s1, s2 with
  | EmptyString, EmptyString => True
  | String a s1', String b s2' => case_variant a b /\ same_up_to_case s1' s2'
  | _, _ => False
  end.

(** [c in s] *)
Fixpoint contains (c : ascii) (s : string) : bool :=
  match s with
  | EmptyString => false
  | String a s' => Ascii.eqb a c || contains c s'
  end.

(** Every character of [s] satisfies [p]. *)
Fixpoint all_chars (p : ascii -> bool) (s : string) : bool :=
  match s with
  | EmptyString => true
  | String a s' => p a && all_chars p s'
  end.

(** A token of [to_date]: a non-empty run of characters of [[\w']]. *)
Definition is_token (s : string) : bool :=
  negb (String.eqb s "") && all_chars is_token_char s.

(** A separator of [to_date]: a non-empty run of other characters. *)
Definition is_separator (s : string) : bool :=
  negb (String.eqb s "") && all_chars (fun c => negb (is_token_char c)) s.

(** [str.isalnum()] on one ASCII character *)
Definition isalnum_char (c : ascii) : bool :=
  islower_char c || isupper_char c || isdigit_char c.

Definition month_tokens : list string :=
  ["01"; "02"; "03"; "04"; "05"; "06"; "07"; "08"; "09"; "10"; "11"; "12"].

(** What [to_date] cannot read: fewer than three tokens, or a day or year
    token that is no integer, or a month token that is no key. *)
Definition malformed_date (s : string) : Prop :=
  match findall s with
  | a0 :: a1 :: a2 :: _ =>
      int a2 = Raise ValueError \/ Convert.monthDictionary !! a1 = None
      \/ int a0 = Raise ValueError
  | _ => True
  end.

(** The identifiers each dispatcher recognizes, in upper case. *)
Definition businessDayConvention_names : list string :=
  ["FOLLOWING"; "MODIFIEDFOLLOWING"; "PRECEDING"; "MODIFIEDPRECEDING";
   "UNADJUSTED"].
Definition calendar_names : list string :=
  ["TARGET"; "UNITEDSTATES"; "UNITEDKINGDOM"].
Definition swapType_names : list string := ["PAYER"; "RECEIVER"].
Definition frequency_names : list string :=
  ["DAILY"; "WEEKLY"; "MONTHLY"; "QUARTERLY"; "SEMIANNUAL"; "ANNUAL"].
Definition dateGenerationRule_names : list string := ["BACKWARD"; "FORWARD"].
Definition dayCounter_names : list string :=
  ["ACTUAL360"; "ACTUAL365FIXED"; "ACTUALACTUAL"; "ACTUAL365NOLEAP";
   "BUSINESS252"; "ONEDAYCOUNTER"; "SIMPLEDAYCOUNTER"; "THIRTY360"].
Definition iborIndex_names : list string := ["USDLIBOR"; "EURIBOR"].



Section Valuation.
Context `{L : ql.Library}.

(** The value of [swap] on the curve rebuilt from [x]: the forward rates
    are the known prefix followed by [x], the knots are the dates of
    [grid], and nothing is read from what an earlier valuation left on the
    object but the family and the tenor of its index. *)
Definition npv_on_rebuilt_curve (swap : VanillaSwap.t) (grid : list ql.Date)
    (prefix x : list Q) : result Q :=
  dc ← VanillaSwap.need (VanillaSwap.floatingLegDayCount swap);
  curve ← ql.new_ForwardCurve grid (prefix ++ x) dc
             (VanillaSwap.floatingLegCalendar swap);
  match VanillaSwap.floatingLegIborIndex swap with
  | None => Raise AttributeError
  | Some i =>
      ty ← VanillaSwap.need (VanillaSwap.swapType swap);
      fdc ← VanillaSwap.need (VanillaSwap.fixedLegDayCount swap);
      ql.instrument_NPV
        (ql.mkVanillaSwap ty (VanillaSwap.nominal swap)
           (VanillaSwap.fixedLegSchedule swap) (VanillaSwap.fixedLegRate swap)
           fdc (VanillaSwap.floatingLegSchedule swap)
           (ql.mkIborIndex (ql.family i) (ql.tenor i) (Some curve))
           (VanillaSwap.floatingLegSpread swap) dc (Some curve))
  end.

(** The stores the solver can bring about from [store0]: it evaluates the
    constraints of [cs], any of them at any [x], any number of times. *)
Inductive evolved (cs : list Constraint) (store0 : list VanillaSwap.t)
  : list VanillaSwap.t -> Prop :=
| evolved_start : evolved cs store0 store0
| evolved_call store c x :
    evolved cs store0 store -> c ∈ cs ->
    evolved cs store0 (call c x store).2.

End Valuation.

(** Two indexes of the same family and tenor, whatever curve they are linked
    to. *)
Definition same_index (i j : option ql.IborIndex) : Prop :=
  match i, j with
  | None, None => True
  | Some a, Some b => ql.family a = ql.family b /\ ql.tenor a = ql.tenor b
  | _, _ => False
  end.

(** [b] is the swap object [a] after some valuations: the two attributes a
    valuation writes may differ, the index still of the same family and
    tenor. *)
Definition same_terms (a b : VanillaSwap.t) : Prop :=
  exists i v,
    b = VanillaSwap.set_instrument (VanillaSwap.set_floatingLegIborIndex a i) v
    /\ same_index (VanillaSwap.floatingLegIborIndex a) i.

(** [check] holds of the [count] integers from [from] on. *)
Definition all_from (check : Z -> bool) (from : Z) (count : positive) : bool :=
  fst (Pos.iter (fun st => (fst st && check (snd st), snd st + 1))
         (true, from) count).

(** The first swap of the reference run, as its constructor leaves it. *)
Definition swap_2Y :=
  Eval vm_compute in
    match reference_swaps as l
          return match l with [] => unit | _ :: _ => VanillaSwap.t end with
    | [] => tt
    | sw :: _ => sw
    end.

(** ** The repricing at the end of the script

    [x] stands for [model.x], the vector the solver returned. *)

(** What the final loop has done when it stops: the lines it printed (the
    swap ID and the value, before formatting), the exception that stopped it
    if one did, and the swap objects as it left them. *)
Record Report : Type := mkReport {
  printed : list (string * Q);
  stopped_by : option Exception;
  swaps_after : list VanillaSwap.t }.

Section Repricing.
Context `{L : ql.Library}.

(** [forwards = np.concatenate([initialMarketData, model.x])] *)
Definition forwards (x : list Q) : list Q :=
  np.concatenate [initialMarketData; x].

(** [curve = ql.YieldTermStructureHandle(ql.ForwardCurve(dates, forwards,
    ql.Actual360(), ql.TARGET()))] *)
Definition curve (dates : list ql.Date) (x : list Q) : result ql.ForwardCurve :=
  ql.new_ForwardCurve dates (forwards x) ql.Actual360 ql.TARGET.

(** The body of the loop, on one swap: a fresh index on the curve, then
    [swap.NPV(curve, index)]. *)
Definition reprice (curve : ql.ForwardCurve) : VanillaSwap.method Q :=
  fun swap =>
    match ql.new_IborIndex_on ql.USDLibor (ql.mkPeriod 3 ql.Months) curve with
    | Raise e => (Raise e, swap)
    | Return index => VanillaSwap.NPV curve index swap
    end.

(** [for swap in swaps: ...; print(swap.ID, pv)]: an exception ends the loop,
    the lines printed before it stay printed. *)
Fixpoint report (curve : ql.ForwardCurve) (swaps : list VanillaSwap.t) : Report :=
  match swaps with
  | [] => mkReport [] None []
  | swap :: rest =>
      let r := reprice curve swap in
      match r.1 with
      | Raise e => mkReport [] (Some e) (r.2 :: rest)
      | Return pv =>
          let tail := report curve rest in
          mkReport ((VanillaSwap.ID swap, pv) :: printed tail)
            (stopped_by tail) (r.2 :: swaps_after tail)
      end
  end.

End Repricing.

(** ** More vocabulary *)

(** The identifier of each enumerator, in upper case. *)
Definition businessDayConvention_name (v : ql.BusinessDayConvention) : string :=
  match v with
  | ql.Following => "FOLLOWING"
  | ql.ModifiedFollowing => "MODIFIEDFOLLOWING"
  | ql.Preceding => "PRECEDING"
  | ql.ModifiedPreceding => "MODIFIEDPRECEDING"
  | ql.Unadjusted => "UNADJUSTED"
  end.

Definition calendar_name (v : ql.Calendar) : string :=
  match v with
  | ql.TARGET => "TARGET"
  | ql.UnitedStates => "UNITEDSTATES"
  | ql.UnitedKingdom => "UNITEDKINGDOM"
  end.

Definition swapType_name (v : ql.SwapType) : string :=
  match v with
  | ql.Payer => "PAYER"
  | ql.Receiver => "RECEIVER"
  end.

Definition frequency_name (v : ql.Frequency) : string :=
  match v with
  | ql.Daily => "DAILY"
  | ql.Weekly => "WEEKLY"
  | ql.Monthly => "MONTHLY"
  | ql.Quarterly => "QUARTERLY"
  | ql.Semiannual => "SEMIANNUAL"
  | ql.Annual => "ANNUAL"
  end.

Definition dateGenerationRule_name (v : ql.DateGeneration) : string :=
  match v with
  | ql.Backward => "BACKWARD"
  | ql.Forward => "FORWARD"
  end.

Definition dayCounter_name (v : ql.DayCounter) : string :=
  match v with
  | ql.Actual360 => "ACTUAL360"
  | ql.Actual365Fixed => "ACTUAL365FIXED"
  | ql.ActualActual => "ACTUALACTUAL"
  | ql.Actual365NoLeap => "ACTUAL365NOLEAP"
  | ql.Business252 => "BUSINESS252"
  | ql.OneDayCounter => "ONEDAYCOUNTER"
  | ql.SimpleDayCounter => "SIMPLEDAYCOUNTER"
  | ql.Thirty360 => "THIRTY360"
  end.

Definition iborFamily_name (v : ql.IborFamily) : string :=
  match v with
  | ql.USDLibor => "USDLIBOR"
  | ql.Euribor => "EURIBOR"
  end.

Section Constructor_calls.
Context `{L : ql.Library}.

(** The constructor call behind each calendar and each day counter of the
    dispatchers. *)
Definition new_Calendar (v : ql.Calendar) : result ql.Calendar :=
  match v with
  | ql.UnitedStates => ql.new_UnitedStates
  | _ => Return v
  end.

Definition new_DayCounter (v : ql.DayCounter) : result ql.DayCounter :=
  match v with
  | ql.ActualActual => ql.new_ActualActual
  | ql.Actual365NoLeap => ql.new_Actual365NoLeap
  | ql.Thirty360 => ql.new_Thirty360
  | _ => Return v
  end.

End Constructor_calls.

(** The character of a decimal digit. *)
Definition digit_char (n : Z) : ascii := ascii_of_N (48 + Z.to_N n).

(** [n] on two and on four digits, zero-padded. *)
Definition pad2 (n : Z) : string :=
  String (digit_char (n / 10)) (String (digit_char (n mod 10)) "").
Definition pad4 (n : Z) : string :=
  String (digit_char (n / 1000))
    (String (digit_char (n / 100 mod 10)) (pad2 (n mod 100))).

(** A date written ['yyyy-mm-dd'], the form the comment of [to_date]
    names. *)
Definition isoformat (x : ql.Date) : string :=
  pad4 (ql.year x) +:+ "-" +:+ pad2 (ql.month x) +:+ "-"
  +:+ pad2 (ql.dayOfMonth x).


Section Constructor_contract.
Context `{L : ql.Library}.
Variables (ID swapType : string) (nominal : Q) (startDate maturityDate : string)
  (fixedLegFrequency fixedLegCalendar fixedLegConvention
     fixedLegDateGenerationRule : string)
  (fixedLegRate : Q) (fixedLegDayCount : string) (fixedLegEndOfMonth : bool)
  (floatingLegFrequency floatingLegCalendar floatingLegConvention
     floatingLegDateGenerationRule : string)
  (floatingLegSpread : Q) (floatingLegDayCount : string)
  (floatingLegEndOfMonth : bool) (floatingLegIborIndex : string).

(** What a swap object owes to the arguments of its constructor: the plain
    attributes are the arguments; both dates were read; the two frequencies,
    calendars, conventions and rules were recognized; swap type, day counts
    and index are whatever their conversions returned, [None] included; the
    schedules are the library's for those terms; there is no instrument
    yet. *)
Definition constructed (self : VanillaSwap.t) : Prop :=
  VanillaSwap.ID self = ID
  /\ VanillaSwap.nominal self = nominal
  /\ VanillaSwap.fixedLegRate self = fixedLegRate
  /\ VanillaSwap.fixedLegEndOfMonth self = fixedLegEndOfMonth
  /\ VanillaSwap.floatingLegSpread self = floatingLegSpread
  /\ VanillaSwap.floatingLegEndOfMonth self = floatingLegEndOfMonth
  /\ Convert.to_swapType swapType = Return (VanillaSwap.swapType self)
  /\ Convert.to_date startDate = Return (VanillaSwap.startDate self)
  /\ Convert.to_date maturityDate = Return (VanillaSwap.maturityDate self)
  /\ (exists f, Convert.to_frequency fixedLegFrequency = Return (Some f)
                /\ VanillaSwap.fixedLegFrequency self = ql.Period_of_frequency f)
  /\ Convert.to_calendar fixedLegCalendar
     = Return (Some (VanillaSwap.fixedLegCalendar self))
  /\ Convert.to_businessDayConvention fixedLegConvention
     = Return (Some (VanillaSwap.fixedLegConvention self))
  /\ Convert.to_dateGenerationRule fixedLegDateGenerationRule
     = Return (Some (VanillaSwap.fixedLegDateGenerationRule self))
  /\ Convert.to_dayCounter fixedLegDayCount
     = Return (VanillaSwap.fixedLegDayCount self)
  /\ (exists f, Convert.to_frequency floatingLegFrequency = Return (Some f)
                /\ VanillaSwap.floatingLegFrequency self
                   = ql.Period_of_frequency f)
  /\ Convert.to_calendar floatingLegCalendar
     = Return (Some (VanillaSwap.floatingLegCalendar self))
  /\ Convert.to_businessDayConvention floatingLegConvention
     = Return (Some (VanillaSwap.floatingLegConvention self))
  /\ Convert.to_dateGenerationRule floatingLegDateGenerationRule
     = Return (Some (VanillaSwap.floatingLegDateGenerationRule self))
  /\ Convert.to_dayCounter floatingLegDayCount
     = Return (VanillaSwap.floatingLegDayCount self)
  /\ Convert.to_iborIndex floatingLegIborIndex
     = Return (VanillaSwap.floatingLegIborIndex self)
  /\ ql.Schedule (VanillaSwap.startDate self) (VanillaSwap.maturityDate self)
       (VanillaSwap.fixedLegFrequency self) (VanillaSwap.fixedLegCalendar self)
       (VanillaSwap.fixedLegConvention self) (VanillaSwap.fixedLegConvention self)
       (VanillaSwap.fixedLegDateGenerationRule self) fixedLegEndOfMonth
     = Return (VanillaSwap.fixedLegSchedule self)
  /\ ql.Schedule (VanillaSwap.startDate self) (VanillaSwap.maturityDate self)
       (VanillaSwap.floatingLegFrequency self)
       (VanillaSwap.floatingLegCalendar self)
       (VanillaSwap.floatingLegConvention self)
       (VanillaSwap.floatingLegConvention self)
       (VanillaSwap.floatingLegDateGenerationRule self) floatingLegEndOfMonth
     = Return (VanillaSwap.floatingLegSchedule self)
  /\ VanillaSwap.instrument self = None.

End Constructor_contract.
(** The terms every swap of the reference run has: day count and calendar of
    the final curve, and a three-month USD Libor index. *)
Definition reference_terms (swap : VanillaSwap.t) : Prop :=
  VanillaSwap.floatingLegDayCount swap = Some ql.Actual360
  /\ VanillaSwap.floatingLegCalendar swap = ql.TARGET
  /\ same_index (VanillaSwap.floatingLegIborIndex swap)
       (Some (ql.mkIborIndex ql.USDLibor (ql.mkPeriod 3 ql.Months) None)).

(** * Properties *)

(** ** The model on small inputs *)

Example upper_mixed : upper "Target_z{`aZ" = "TARGET_Z{`AZ".
Proof. reflexivity. Qed.

Example split_index_name : split "." "USDLibor.3M" = ["USDLibor"; "3M"].
Proof. reflexivity. Qed.

Example split_keeps_empty_pieces :
  split "." "" = [""] /\ split "." "a..b." = ["a"; ""; "b"; ""].
Proof. split; reflexivity. Qed.

Example findall_dashes : findall "2008-02-06" = ["2008"; "02"; "06"].
Proof. reflexivity. Qed.

Example findall_blanks : findall " it's  2008 " = ["it's"; "2008"].
Proof. reflexivity. Qed.

Example int_tokens :
  int "2008" = Return 2008 /\ int "06" = Return 6 /\ int "2_008" = Return 2008
  /\ int "2__8" = Raise ValueError /\ int "_8" = Raise ValueError
  /\ int "8_" = Raise ValueError /\ int "x" = Raise ValueError.
Proof. repeat split; reflexivity. Qed.

Example to_date_outcomes :
  Convert.to_date "2008-02-06" = Return (ql.mkDate 6 2 2008)
  /\ Convert.to_date "2008/2/06" = Raise KeyError
  /\ Convert.to_date "2008-02" = Raise IndexError
  /\ Convert.to_date "x-02-06" = Raise ValueError
  /\ Convert.to_date "2008-02-31" = Raise RuntimeError.
Proof. repeat split; reflexivity. Qed.

Example weekdays :
  ql.serial (ql.mkDate 1 1 1970) = 0
  /\ ql.weekday (ql.mkDate 1 1 1970) = 4
  /\ ql.weekday (ql.mkDate 4 2 2008) = 1
  /\ ql.weekday (ql.mkDate 6 2 2038) = 6.
Proof. repeat split; reflexivity. Qed.

(** Easter Monday fell on 24 March 2008, 1 April 2024, and will fall on
    26 April 2038. *)
Example easter_mondays :
  ql.easterMonday 2008 = ql.dayOfYear (ql.mkDate 24 3 2008)
  /\ ql.easterMonday 2024 = ql.dayOfYear (ql.mkDate 1 4 2024)
  /\ ql.easterMonday 2038 = ql.dayOfYear (ql.mkDate 26 4 2038).
Proof. repeat split; reflexivity. Qed.

Example TARGET_days :
  ql.TARGET_isBusinessDay (ql.mkDate 21 3 2008) = false
  /\ ql.TARGET_isBusinessDay (ql.mkDate 24 3 2008) = false
  /\ ql.TARGET_isBusinessDay (ql.mkDate 25 3 2008) = true
  /\ ql.TARGET_isBusinessDay (ql.mkDate 1 5 2008) = false
  /\ ql.TARGET_isBusinessDay (ql.mkDate 26 12 2008) = false
  /\ ql.TARGET_isBusinessDay (ql.mkDate 9 2 2008) = false.
Proof. repeat split; reflexivity. Qed.

(** The day numbers and the dates of the years 1901 to 2199 determine each
    other, and the day numbers next to that range are refused. *)
Lemma serial_of_serial :
  all_from (fun n => match ql.of_serial n with
                     | Return d => ql.serial d =? n
                     | Raise _ => false
                     end)
    (ql.serial (ql.mkDate 1 1 1901)) ql.date_span = true
  /\ ql.serial (ql.mkDate 1 1 1901) + Z.pos ql.date_span
     = ql.serial (ql.mkDate 31 12 2199) + 1
  /\ ql.of_serial (ql.serial (ql.mkDate 1 1 1901) - 1) = Raise RuntimeError
  /\ ql.of_serial (ql.serial (ql.mkDate 31 12 2199) + 1) = Raise RuntimeError.
Proof. split; [|split; [|split]]; vm_compute; reflexivity. Qed.

Example objective_on_small_vectors :
  (ObjectiveFunction [3; 5] ([1; 2], 10) == 60)%Q
  /\ (ObjectiveFunction [] ([7], 10) == 0)%Q
  /\ (ObjectiveFunction [] ([], 10) == 0)%Q.
Proof. split; [|split]; vm_compute; reflexivity. Qed.

Example quarterly_backward_two_years `{L : ql.Library} :
  ql.Schedule (ql.mkDate 6 2 2008) (ql.mkDate 6 2 2010)
    (ql.mkPeriod 3 ql.Months) ql.TARGET ql.ModifiedFollowing
    ql.ModifiedFollowing ql.Backward false
  = Return [ql.mkDate 6 2 2008; ql.mkDate 6 5 2008; ql.mkDate 6 8 2008;
            ql.mkDate 6 11 2008; ql.mkDate 6 2 2009; ql.mkDate 6 5 2009;
            ql.mkDate 6 8 2009; ql.mkDate 6 11 2009; ql.mkDate 8 2 2010].
Proof. vm_compute. reflexivity. Qed.

Example forward_with_end_stub `{L : ql.Library} :
  ql.Schedule (ql.mkDate 6 2 2008) (ql.mkDate 20 3 2009)
    (ql.mkPeriod 6 ql.Months) ql.TARGET ql.Following ql.Following
    ql.Forward false
  = Return [ql.mkDate 6 2 2008; ql.mkDate 6 8 2008; ql.mkDate 6 2 2009;
            ql.mkDate 20 3 2009].
Proof. vm_compute. reflexivity. Qed.

(** ** Strings *)

Lemma append_cons (c : ascii) (s t : string) :
  String c s +:+ t = String c (s +:+ t).
Proof. reflexivity. Qed.

Lemma append_empty_l (t : string) : "" +:+ t = t.
Proof. reflexivity. Qed.

Lemma append_empty_r (s : string) : s +:+ "" = s.
Proof.
  induction s as [|c s IH]; [reflexivity | now rewrite append_cons, IH].
Qed.

Lemma append_snoc (s a : string) (c : ascii) :
  (s +:+ String c "") +:+ a = s +:+ String c a.
Proof.
  induction s as [|b s IH]; [reflexivity | now rewrite !append_cons, IH].
Qed.

Lemma upper_char_variant (a b : ascii) :
  case_variant a b -> upper_char a = upper_char b.
Proof.
  assert (Hinj : forall x y, code x = code y -> x = y).
  { intros x y E. rewrite <- (ascii_N_embedding x), <- (ascii_N_embedding y).
    unfold code in E. now rewrite E. }
  assert (Hup : forall x y, (97 <= code x <= 122)%N -> (code x = code y + 32)%N ->
                       upper_char x = upper_char y).
  { intros x y Hx E. unfold upper_char, islower_char.
    replace (97 <=? code x)%N with true by (symmetry; apply N.leb_le; lia).
    replace (code x <=? 122)%N with true by (symmetry; apply N.leb_le; lia).
    replace (code y <=? 122)%N with true by (symmetry; apply N.leb_le; lia).
    replace (97 <=? code y)%N with false by (symmetry; apply N.leb_gt; lia).
    simpl. replace (code x - 32)%N with (code y) by lia.
    apply ascii_N_embedding. }
  intros [E | [[Ha E] | [Hb E]]].
  - now rewrite (Hinj _ _ E).
  - now apply Hup.
  - symmetry. now apply Hup.
Qed.

Lemma upper_same_up_to_case (s1 : string) :
  forall s2, same_up_to_case s1 s2 -> upper s1 = upper s2.
Proof.
  induction s1 as [|a s1 IH]; intros [|b s2]; simpl; try tauto.
  intros [Hab Hs]. now rewrite (upper_char_variant a b Hab), (IH s2 Hs).
Qed.

Lemma case_variant_eqb (a b c : ascii) :
  case_variant a b -> (code c < 97)%N -> (code c < 65 \/ 90 < code c)%N ->
  Ascii.eqb a c = Ascii.eqb b c.
Proof.
  intros Hab Hc1 Hc2.
  destruct (Ascii.eqb_spec a c) as [->|Ha], (Ascii.eqb_spec b c) as [->|Hb];
    try reflexivity; exfalso.
  - destruct Hab as [E | [[H1 E] | [H1 E]]]; try lia.
    apply Hb. rewrite <- (ascii_N_embedding b), <- (ascii_N_embedding c).
    unfold code in E. now rewrite E.
  - destruct Hab as [E | [[H1 E] | [H1 E]]]; try lia.
    apply Ha. rewrite <- (ascii_N_embedding a), <- (ascii_N_embedding c).
    unfold code in E. now rewrite E.
Qed.

Lemma contains_dot_same_up_to_case (s1 : string) :
  forall s2, same_up_to_case s1 s2 -> contains "." s1 = contains "." s2.
Proof.
  induction s1 as [|a s1 IH]; intros [|b s2]; simpl; try tauto.
  intros [Hab Hs]. rewrite (IH s2 Hs).
  rewrite (case_variant_eqb a b "."%char Hab); [reflexivity | |];
    vm_compute; auto.
Qed.

Lemma split_no_dot (s : string) :
  contains "." s = false -> split "." s = [s].
Proof.
  induction s as [|a s IH]; simpl; [reflexivity|].
  destruct (Ascii.eqb a "."); simpl; [discriminate|].
  intros Hs. now rewrite (IH Hs).
Qed.

Lemma split_at_first_dot (n t : string) :
  contains "." n = false -> split "." (n +:+ "." +:+ t) = n :: split "." t.
Proof.
  induction n as [|a n IH]; [reflexivity|].
  rewrite append_cons. simpl.
  destruct (Ascii.eqb a "."); simpl; [discriminate|].
  intros Hn. now rewrite (IH Hn).
Qed.

Lemma findall_from_token (a : string) :
  forall cur s, all_chars is_token_char a = true ->
    findall_from cur (a +:+ s) = findall_from (cur +:+ a) s.
Proof.
  induction a as [|c a IH]; intros cur s Ha.
  - now rewrite append_empty_l, append_empty_r.
  - simpl in Ha. apply andb_prop in Ha as [Hc Ha].
    rewrite append_cons. simpl. now rewrite Hc, (IH _ _ Ha), append_snoc.
Qed.

Lemma findall_from_gap (p : string) :
  forall s, all_chars (fun c => negb (is_token_char c)) p = true ->
    findall_from "" (p +:+ s) = findall_from "" s.
Proof.
  induction p as [|c p IH]; intros s Hp; [reflexivity|].
  simpl in Hp. apply andb_prop in Hp as [Hc Hp]. apply negb_true_iff in Hc.
  rewrite append_cons. simpl. rewrite Hc. simpl. now apply IH.
Qed.

Lemma findall_from_separator (p : string) :
  forall cur s, is_separator p = true ->
    findall_from cur (p +:+ s) = (flush cur ++ findall_from "" s)%list.
Proof.
  destruct p as [|c p]; intros cur s Hp; [discriminate|].
  unfold is_separator in Hp. simpl in Hp.
  apply andb_prop in Hp as [Hc Hp]. apply negb_true_iff in Hc.
  rewrite append_cons. simpl. rewrite Hc. f_equal. now apply findall_from_gap.
Qed.

Lemma flush_token (a : string) : is_token a = true -> flush a = [a].
Proof. destruct a; [discriminate | reflexivity]. Qed.

(** Three tokens with separators between them are found as they are. *)
Lemma findall_three (y p m q d : string) :
  is_token y = true -> is_separator p = true -> is_token m = true ->
  is_separator q = true -> is_token d = true ->
  findall (y +:+ p +:+ m +:+ q +:+ d) = [y; m; d].
Proof.
  intros Hy Hp Hm Hq Hd. unfold findall.
  pose proof Hy as Hy'. pose proof Hm as Hm'. pose proof Hd as Hd'.
  unfold is_token in Hy', Hm', Hd'.
  apply andb_prop in Hy' as [_ Hy'], Hm' as [_ Hm'], Hd' as [_ Hd'].
  rewrite (findall_from_token y) by assumption. rewrite append_empty_l.
  rewrite (findall_from_separator p) by assumption.
  rewrite (flush_token y) by assumption.
  rewrite (findall_from_token m) by assumption. rewrite append_empty_l.
  rewrite (findall_from_separator q) by assumption.
  rewrite (flush_token m) by assumption.
  rewrite <- (append_empty_r d) at 1.
  rewrite (findall_from_token d) by assumption. rewrite append_empty_l.
  simpl. now rewrite (flush_token d).
Qed.

Lemma monthDictionary_keys (k : string) (v : Z) :
  Convert.monthDictionary !! k = Some v -> k ∈ month_tokens.
Proof.
  intros Hk. apply (elem_of_list_to_map_2 (M := gmap string)) in Hk.
  unfold month_tokens.
  repeat (apply elem_of_cons in Hk as [Hk | Hk];
          [injection Hk as -> _; set_solver|]).
  set_solver.
Qed.

(** Walks the [if] chain of a dispatcher on a name that is in none of its
    tests. *)
Ltac fall_through Hnot :=
  repeat match goal with
         | |- context [String.eqb ?a ?b] =>
             destruct (String.eqb_spec a b) as [E | _];
             [exfalso; apply Hnot; rewrite E; set_solver |]
         end;
  reflexivity.

Section Dispatch.
Context `{ql.Library}.

(** C2, as the code has it: no [Convert] operation raises a configuration
    error. On an ASCII string whose upper-cased form is none of its
    identifiers, each dispatcher returns [None] and raises nothing
    ([to_iborIndex] looks at the text before the first dot); on a string
    with fewer than three tokens, a month token outside the dictionary or
    a day or year token that is no integer, [to_date] raises the built-in
    [IndexError], [KeyError] or [ValueError]. *)
Theorem Convert_unrecognized_outcome (s : string) :
  isascii s = true ->
  (upper s ∉ businessDayConvention_names ->
     Convert.to_businessDayConvention s = Return None)
  /\ (upper s ∉ calendar_names -> Convert.to_calendar s = Return None)
  /\ (upper s ∉ swapType_names -> Convert.to_swapType s = Return None)
  /\ (upper s ∉ frequency_names -> Convert.to_frequency s = Return None)
  /\ (upper s ∉ dateGenerationRule_names ->
        Convert.to_dateGenerationRule s = Return None)
  /\ (upper s ∉ dayCounter_names -> Convert.to_dayCounter s = Return None)
  /\ (forall s0 rest, split "." s = s0 :: rest ->
        upper s0 ∉ iborIndex_names -> Convert.to_iborIndex s = Return None)
  /\ (malformed_date s ->
        Convert.to_date s = Raise IndexError
        \/ Convert.to_date s = Raise KeyError
        \/ Convert.to_date s = Raise ValueError).
Proof.
  intros _. repeat split.
  - intros Hn. unfold Convert.to_businessDayConvention. fall_through Hn.
  - intros Hn. unfold Convert.to_calendar. fall_through Hn.
  - intros Hn. unfold Convert.to_swapType. fall_through Hn.
  - intros Hn. unfold Convert.to_frequency. fall_through Hn.
  - intros Hn. unfold Convert.to_dateGenerationRule. fall_through Hn.
  - intros Hn. unfold Convert.to_dayCounter. fall_through Hn.
  - intros s0 rest Hs Hn. unfold Convert.to_iborIndex. rewrite Hs. simpl.
    fall_through Hn.
  - unfold malformed_date, Convert.to_date.
    destruct (findall s) as [|a0 [|a1 [|a2 l]]]; try (now left).
    simpl. intros [Hd | [Hm | Hy]].
    + rewrite Hd. now right; right.
    + destruct (int a2) as [d|e] eqn:Ed; simpl.
      * unfold dict_getitem. rewrite Hm. now right; left.
      * unfold int in Ed. destruct (int_from 0 false a2); [discriminate|].
        injection Ed as <-. now right; right.
    + destruct (int a2) as [d|e] eqn:Ed; simpl.
      * destruct (dict_getitem Convert.monthDictionary a1) as [m|e] eqn:Em;
          simpl.
        -- rewrite Hy. now right; right.
        -- unfold dict_getitem in Em.
           destruct (Convert.monthDictionary !! a1); [discriminate|].
           injection Em as <-. now right; left.
      * unfold int in Ed. destruct (int_from 0 false a2); [discriminate|].
        injection Ed as <-. now right; right.
Qed.

(** C9: the seven dispatchers do not see letter case. Two strings that are
    equal up to the case of their letters get the same outcome from each of
    the six one-word dispatchers; [to_iborIndex] gives the same outcome for
    two such index names, alone or followed by the same [.tenor]. *)
Theorem Convert_case_insensitive (s1 s2 : string) :
  isascii s1 = true ->
  same_up_to_case s1 s2 ->
  Convert.to_calendar s1 = Convert.to_calendar s2
  /\ Convert.to_dayCounter s1 = Convert.to_dayCounter s2
  /\ Convert.to_frequency s1 = Convert.to_frequency s2
  /\ Convert.to_businessDayConvention s1 = Convert.to_businessDayConvention s2
  /\ Convert.to_dateGenerationRule s1 = Convert.to_dateGenerationRule s2
  /\ Convert.to_swapType s1 = Convert.to_swapType s2
  /\ (contains "." s1 = false ->
        Convert.to_iborIndex s1 = Convert.to_iborIndex s2
        /\ forall t, Convert.to_iborIndex (s1 +:+ "." +:+ t)
                     = Convert.to_iborIndex (s2 +:+ "." +:+ t)).
Proof.
  intros _ Hs. pose proof (upper_same_up_to_case s1 s2 Hs) as Hu.
  unfold Convert.to_calendar, Convert.to_dayCounter, Convert.to_frequency,
    Convert.to_businessDayConvention, Convert.to_dateGenerationRule,
    Convert.to_swapType.
  rewrite Hu. repeat split; try reflexivity.
  - unfold Convert.to_iborIndex.
    rewrite (split_no_dot s1) by assumption.
    rewrite (split_no_dot s2)
      by (now rewrite <- (contains_dot_same_up_to_case s1 s2 Hs)).
    simpl. now rewrite Hu.
  - intros t. unfold Convert.to_iborIndex.
    rewrite (split_at_first_dot s1) by assumption.
    rewrite (split_at_first_dot s2)
      by (now rewrite <- (contains_dot_same_up_to_case s1 s2 Hs)).
    simpl. now rewrite Hu.
Qed.

End Dispatch.

(** C10, as the code has it: [to_date] cuts its input at every run of
    characters outside [[\w']] (letters, digits, underscore, apostrophe), so
    that three tokens with any such separators between them are read as
    year, month, day; it returns a date only when the second token is one of
    ['01'] to ['12'], the first token reads as the year and the third as the
    day; with fewer than three tokens or another month token it raises. *)
Theorem to_date_tokens (s : string) :
  isascii s = true ->
  (forall y p m q d,
     s = y +:+ p +:+ m +:+ q +:+ d ->
     is_token y = true -> is_separator p = true -> is_token m = true ->
     is_separator q = true -> is_token d = true ->
     Convert.to_date s
     = (dd ← int d; mm ← dict_getitem Convert.monthDictionary m; yy ← int y;
        ql.new_Date dd mm yy))
  /\ (forall x, Convert.to_date s = Return x ->
        exists a0 a1 a2,
          findall s !! 0%nat = Some a0 /\ findall s !! 1%nat = Some a1
          /\ findall s !! 2%nat = Some a2
          /\ a1 ∈ month_tokens
          /\ Convert.monthDictionary !! a1 = Some (ql.month x)
          /\ int a0 = Return (ql.year x)
          /\ int a2 = Return (ql.dayOfMonth x))
  /\ ((List.length (findall s) < 3)%nat
      \/ (exists a1, findall s !! 1%nat = Some a1 /\ a1 ∉ month_tokens) ->
      raises (Convert.to_date s)).
Proof.
  intros _. repeat split.
  - intros y p m q d -> Hy Hp Hm Hq Hd. unfold Convert.to_date.
    now rewrite (findall_three y p m q d).
  - intros x. unfold Convert.to_date.
    destruct (findall s) as [|a0 [|a1 [|a2 l]]]; try discriminate. simpl.
    destruct (int a2) as [d|] eqn:Ed; [simpl | discriminate].
    unfold dict_getitem.
    destruct (Convert.monthDictionary !! a1) as [m|] eqn:Em;
      [simpl | discriminate].
    destruct (int a0) as [y|] eqn:Ey; [simpl | discriminate].
    unfold ql.new_Date. destruct (ql.valid_ymd d m y); [|discriminate].
    intros [= <-]. exists a0, a1, a2. simpl.
    repeat split; try reflexivity; try assumption.
    now apply (monthDictionary_keys a1 m).
  - unfold raises, Convert.to_date. intros [Hlen | [a1 [H1 Hnot]]].
    + destruct (findall s) as [|a0 [|a1 [|a2 l]]]; simpl in *;
        try (eexists; reflexivity). lia.
    + destruct (findall s) as [|a0 [|a1' [|a2 l]]]; simpl in *;
        try (eexists; reflexivity).
      injection H1 as ->.
      destruct (int a2); simpl; [|eexists; reflexivity].
      unfold dict_getitem.
      destruct (Convert.monthDictionary !! a1) as [m|] eqn:Em;
        [|eexists; reflexivity].
      exfalso. apply Hnot. now apply (monthDictionary_keys a1 m).
Qed.

(** The name [Tokyo] is no calendar of the script, and [to_calendar] answers
    it with [None] instead of an error (against C2 as stated). *)
Lemma to_calendar_unknown_name_returns :
  (upper "Tokyo" ∉ calendar_names)
  /\ Convert.to_calendar (H := sample_library) "Tokyo" = Return None
  /\ ~ raises (Convert.to_calendar (H := sample_library) "Tokyo").
Proof.
  split; [|split].
  - unfold calendar_names. intros Hin.
    repeat (apply elem_of_cons in Hin as [Hin | Hin]; [discriminate|]).
    inversion Hin.
  - reflexivity.
  - intros [e He]. discriminate.
Qed.

Lemma Convert_unrecognized_outcome_witness :
  isascii "Tokyo" = true
  /\ Convert.to_calendar (H := sample_library) "Tokyo" = Return None
  /\ Convert.to_iborIndex (H := sample_library) "Tibor.3M" = Return None
  /\ (Convert.to_date "2008-2-06" = Raise IndexError
      \/ Convert.to_date "2008-2-06" = Raise KeyError
      \/ Convert.to_date "2008-2-06" = Raise ValueError).
Proof.
  split; [reflexivity|].
  destruct (@Convert_unrecognized_outcome sample_library "Tokyo" eq_refl)
    as (_ & Hcal & _).
  destruct (@Convert_unrecognized_outcome sample_library "Tibor.3M" eq_refl)
    as (_ & _ & _ & _ & _ & _ & Hibor & _).
  destruct (@Convert_unrecognized_outcome sample_library "2008-2-06" eq_refl)
    as (_ & _ & _ & _ & _ & _ & _ & Hdate).
  split; [|split].
  - apply Hcal. unfold calendar_names. intros Hin.
    repeat (apply elem_of_cons in Hin as [Hin | Hin]; [discriminate|]).
    inversion Hin.
  - apply (Hibor "Tibor" ["3M"] eq_refl).
    unfold iborIndex_names. intros Hin.
    repeat (apply elem_of_cons in Hin as [Hin | Hin]; [discriminate|]).
    inversion Hin.
  - apply Hdate. right. left. reflexivity.
Defined.

Lemma Convert_case_insensitive_witness :
  isascii "usdlibor" = true
  /\ same_up_to_case "usdlibor" "USDLibor"
  /\ Convert.to_calendar (H := sample_library) "usdlibor"
     = Convert.to_calendar (H := sample_library) "USDLibor"
  /\ Convert.to_iborIndex (H := sample_library) "usdlibor.3M"
     = Convert.to_iborIndex (H := sample_library) "USDLibor.3M".
Proof.
  assert (Hs : same_up_to_case "usdlibor" "USDLibor").
  { simpl. unfold case_variant.
    repeat split;
      solve [ left; reflexivity
            | right; left; vm_compute; repeat split; discriminate ]. }
  split; [reflexivity|]. split; [exact Hs|].
  destruct (@Convert_case_insensitive sample_library "usdlibor" "USDLibor"
              eq_refl Hs) as (Hcal & _ & _ & _ & _ & _ & Hibor).
  split; [exact Hcal|].
  destruct (Hibor eq_refl) as [_ Ht]. exact (Ht "3M").
Defined.

(** The underscore and the apostrophe are not alphanumeric, and [to_date]
    does not cut at them (against C10 as stated): the whole string is one
    token and the call raises, where the same digits with [-] give a date. *)
Lemma to_date_underscore_is_no_separator :
  isalnum_char "_" = false
  /\ isalnum_char "'" = false
  /\ findall "2008_02_06" = ["2008_02_06"]
  /\ Convert.to_date "2008_02_06" = Raise IndexError
  /\ Convert.to_date "2008'02'06" = Raise IndexError
  /\ Convert.to_date "2008-02-06" = Return (ql.mkDate 6 2 2008).
Proof. repeat split; reflexivity. Qed.

Lemma to_date_tokens_witness :
  isascii "2008/02/06" = true
  /\ Convert.to_date "2008/02/06" = Return (ql.mkDate 6 2 2008)
  /\ Convert.to_date "2008/02/06" = Convert.to_date "2008-02-06".
Proof.
  split; [reflexivity|].
  destruct (to_date_tokens "2008/02/06" eq_refl) as [Hslash _].
  destruct (to_date_tokens "2008-02-06" eq_refl) as [Hdash _].
  rewrite (Hslash "2008" "/" "02" "/" "06") by reflexivity.
  rewrite (Hdash "2008" "-" "02" "-" "06") by reflexivity.
  split; reflexivity.
Defined.

(** ** The objective *)




(** ** The calibration set-up *)

Section Setup.
Context `{L : ql.Library}.

Lemma to_iborIndex_USDLibor_3M :
  ql.Period_of_string "3M" = Return (ql.mkPeriod 3 ql.Months) ->
  Convert.to_iborIndex "USDLibor.3M"
  = Return (Some (ql.mkIborIndex ql.USDLibor (ql.mkPeriod 3 ql.Months) None)).
Proof.
  intros Hp. unfold Convert.to_iborIndex.
  change (split "." "USDLibor.3M") with ["USDLibor"; "3M"].
  change (getitem ["USDLibor"; "3M"] 0) with (Return "USDLibor").
  change (getitem ["USDLibor"; "3M"] 1) with (Return "3M").
  simpl. rewrite Hp. reflexivity.
Qed.

(** With the tenor ['3M'] understood, the fourteen constructor calls all
    succeed, and the swaps they build do not depend on the library. *)
Lemma swaps_built :
  ql.Period_of_string "3M" = Return (ql.mkPeriod 3 ql.Months) ->
  swaps = Return reference_swaps.
Proof.
  intros Hp. unfold swaps, VanillaSwap.init.
  rewrite (to_iborIndex_USDLibor_3M Hp). vm_compute. reflexivity.
Qed.

Lemma dates_built : dates = Return reference_dates.
Proof. vm_compute. reflexivity. Qed.

Lemma swapConstraints_built :
  ql.Period_of_string "3M" = Return (ql.mkPeriod 3 ql.Months) ->
  swapConstraints
  = Return (constraints_of reference_swaps reference_dates).
Proof.
  intros Hp. unfold swapConstraints.
  generalize (swaps_built Hp) dates_built.
  generalize reference_swaps reference_dates swaps dates.
  intros sws grid s d -> ->. reflexivity.
Qed.

Lemma model_built :
  ql.Period_of_string "3M" = Return (ql.mkPeriod 3 ql.Months) ->
  model
  = Return (mkMinimize ObjectiveFunction initialForwardGuesses
              (initialMarketData, scalingFactor) "SLSQP" {["maxiter" := 500]}
              (constraints_of reference_swaps reference_dates)).
Proof.
  intros Hp. unfold model. generalize (swapConstraints_built Hp).
  generalize (constraints_of reference_swaps reference_dates) swapConstraints.
  intros cs c ->. reflexivity.
Qed.

End Setup.

(** C6: the decision vector has one entry per knot after the market-rate
    prefix: the 117 initial guesses and the 4 market rates are as many as the
    quarterly grid has dates. *)
Theorem decision_vector_length `{L : ql.Library} :
  exists grid,
    dates = Return grid
    /\ List.length initialForwardGuesses = 117%nat
    /\ List.length initialMarketData = 4%nat
    /\ List.length initialForwardGuesses
       = (List.length grid - List.length initialMarketData)%nat
    /\ (List.length initialMarketData + List.length initialForwardGuesses)%nat
       = List.length grid.
Proof.
  exists reference_dates. split; [apply dates_built|].
  repeat split; vm_compute; reflexivity.
Qed.

(** C7: the knot grid runs from the settlement date to the longest maturity.
    It is generated quarterly and backward; its first date is the settlement
    date 2008-02-06, the second TARGET business day after 2008-02-04; its
    last date is 2038-02-06 moved by [ModifiedFollowing] to 2038-02-08, which
    is the maturity date of the 30Y swap, the latest of the fourteen. *)
Theorem knot_grid_span `{L : ql.Library} :
  ql.Period_of_string "3M" = Return (ql.mkPeriod 3 ql.Months) ->
  exists first final grid sws swap30,
    today = Return (ql.mkDate 4 2 2008)
    /\ settlementDate = Return first
    /\ first = ql.mkDate 6 2 2008
    /\ ql.isBusinessDay ql.TARGET (ql.mkDate 5 2 2008) = true
    /\ ql.isBusinessDay ql.TARGET first = true
    /\ dates = Return grid
    /\ dates = ql.Schedule first (ql.mkDate 6 2 2038) (ql.mkPeriod 3 ql.Months)
                 ql.TARGET ql.ModifiedFollowing ql.ModifiedFollowing
                 ql.Backward false
    /\ head grid = Some first
    /\ last grid = Some final
    /\ ql.adjust ql.TARGET ql.ModifiedFollowing (ql.mkDate 6 2 2038)
       = Return final
    /\ swaps = Return sws
    /\ last sws = Some swap30
    /\ VanillaSwap.ID swap30 = "30Y"
    /\ VanillaSwap.maturityDate swap30 = final
    /\ Forall (fun sw => ql.Date_leb (VanillaSwap.maturityDate sw) final = true)
         sws.
Proof.
  intros Hp.
  exists (ql.mkDate 6 2 2008), (ql.mkDate 8 2 2038), reference_dates,
    reference_swaps.
  eexists.
  split; [reflexivity|]. split; [vm_compute; reflexivity|].
  split; [reflexivity|]. split; [vm_compute; reflexivity|].
  split; [vm_compute; reflexivity|]. split; [apply dates_built|].
  split; [vm_compute; reflexivity|]. split; [vm_compute; reflexivity|].
  split; [vm_compute; reflexivity|]. split; [vm_compute; reflexivity|].
  split; [apply (swaps_built Hp)|]. split; [vm_compute; reflexivity|].
  split; [reflexivity|]. split; [reflexivity|].
  unfold reference_swaps. repeat constructor.
Qed.

Lemma knot_grid_span_witness :
  ql.Period_of_string (Library := sample_library) "3M"
  = Return (ql.mkPeriod 3 ql.Months)
  /\ exists grid,
       @dates sample_library = Return grid
       /\ head grid = Some (ql.mkDate 6 2 2008)
       /\ last grid = Some (ql.mkDate 8 2 2038).
Proof.
  split; [reflexivity|].
  destruct (@knot_grid_span sample_library eq_refl)
    as (first & final & grid & sws & swap30 & _ & _ & Hfirst & _ & _ & Hgrid
        & _ & Hhead & Hlast & Hadj & _).
  exists grid. rewrite Hfirst in Hhead.
  split; [exact Hgrid|]. split; [exact Hhead|].
  rewrite Hlast. f_equal.
  assert (E : forall a b : ql.Date, Return a = Return b -> a = b)
    by (intros a b [=]; assumption).
  apply E. rewrite <- Hadj. vm_compute. reflexivity.
Defined.

(** C8: the solver is called as the reference configuration has it: method
    [SLSQP], at most 500 iterations and no other option; equality
    constraints only, fourteen of them, the [k]-th being [NPV_calibration]
    of the [k]-th swap on the knot grid and the market-rate prefix; and the
    constant 0.02 as the initial guess at each of the 117 knots after the
    prefix. *)
Theorem model_reference_configuration `{L : ql.Library} :
  ql.Period_of_string "3M" = Return (ql.mkPeriod 3 ql.Months) ->
  exists m grid sws,
    model = Return m
    /\ dates = Return grid
    /\ swaps = Return sws
    /\ method m = "SLSQP"
    /\ options m = {["maxiter" := 500]}
    /\ options m !! "maxiter" = Some 500
    /\ swapConstraints = Return (constraints m)
    /\ Forall (fun c => type c = "eq") (constraints m)
    /\ List.length (constraints m) = 14%nat
    /\ List.length (constraints m) = List.length sws
    /\ (forall k swap,
          sws !! k = Some swap ->
          exists c,
            constraints m !! k = Some c
            /\ type c = "eq" /\ fun_self c = k
            /\ args c = (grid, initialMarketData)
            /\ forall x,
                 call c x sws
                 = ((VanillaSwap.NPV_calibration x (grid, initialMarketData)
                       swap).1,
                    <[k := (VanillaSwap.NPV_calibration x
                              (grid, initialMarketData) swap).2]> sws))
    /\ List.length (x0 m) = 117%nat
    /\ List.length (x0 m)
       = (List.length grid - List.length initialMarketData)%nat
    /\ (forall k g, x0 m !! k = Some g -> g = 0.02%Q)
    /\ x0 m = initialForwardGuesses
    /\ objective m = ObjectiveFunction
    /\ objective_args m = (initialMarketData, scalingFactor).
Proof.
  intros Hp.
  exists (mkMinimize ObjectiveFunction initialForwardGuesses
            (initialMarketData, scalingFactor) "SLSQP" {["maxiter" := 500]}
            (constraints_of reference_swaps reference_dates)).
  exists reference_dates, reference_swaps.
  split; [apply (model_built Hp)|].
  split; [apply dates_built|].
  split; [apply (swaps_built Hp)|]. simpl.
  split; [reflexivity|]. split; [reflexivity|]. split; [reflexivity|].
  split; [apply (swapConstraints_built Hp)|].
  split.
  { unfold constraints_of. apply Forall_forall. intros c Hc.
    apply list_elem_of_lookup in Hc as [k Hk].
    rewrite list_lookup_imap in Hk.
    destruct (reference_swaps !! k); [|discriminate].
    injection Hk as <-. reflexivity. }
  split; [vm_compute; reflexivity|].
  split; [vm_compute; reflexivity|].
  split.
  { generalize reference_swaps reference_dates. intros sws grid k swap Hk.
    exists (mkConstraint "eq" k (grid, initialMarketData)).
    split; [unfold constraints_of; now rewrite list_lookup_imap, Hk|].
    split; [reflexivity|]. split; [reflexivity|]. split; [reflexivity|].
    intros x. unfold call. simpl. now rewrite Hk. }
  split; [reflexivity|]. split; [vm_compute; reflexivity|].
  split.
  { intros k g Hk. unfold initialForwardGuesses, np.full in Hk.
    apply lookup_replicate in Hk as [-> _]. reflexivity. }
  repeat split.
Qed.

Lemma model_reference_configuration_witness :
  ql.Period_of_string (Library := sample_library) "3M"
  = Return (ql.mkPeriod 3 ql.Months)
  /\ exists m, @model sample_library = Return m
               /\ method m = "SLSQP" /\ options m !! "maxiter" = Some 500
               /\ List.length (constraints m) = 14%nat
               /\ List.length (x0 m) = 117%nat.
Proof.
  split; [reflexivity|].
  destruct (@model_reference_configuration sample_library eq_refl)
    as (m & grid & sws & Hm & _ & _ & Hmethod & _ & Hiter & _ & _ & Hn & _ & _
        & Hx & _).
  exists m. split; [exact Hm|]. split; [exact Hmethod|].
  split; [exact Hiter|]. split; [exact Hn | exact Hx].
Defined.

(** ** Valuation *)

Lemma same_index_refl (i : option ql.IborIndex) : same_index i i.
Proof. destruct i; simpl; auto. Qed.

Lemma same_index_trans (i j k : option ql.IborIndex) :
  same_index i j -> same_index j k -> same_index i k.
Proof.
  destruct i, j, k; simpl; try tauto.
  intros [-> ->] [-> ->]. auto.
Qed.

Lemma same_terms_refl (a : VanillaSwap.t) : same_terms a a.
Proof.
  exists (VanillaSwap.floatingLegIborIndex a), (VanillaSwap.instrument a).
  split; [destruct a; reflexivity | apply same_index_refl].
Qed.

Lemma same_terms_trans (a b c : VanillaSwap.t) :
  same_terms a b -> same_terms b c -> same_terms a c.
Proof.
  intros (i & v & -> & Hi) (j & w & -> & Hj).
  exists j, w. split; [destruct a; reflexivity|].
  destruct a; simpl in *. eapply same_index_trans; eassumption.
Qed.

Section Valuation_properties.
Context `{L : ql.Library}.

(** A valuation writes the index and the instrument of the object, and
    keeps the family and the tenor of the index. *)
Lemma price_with_same_terms (curve : ql.ForwardCurve) (a : VanillaSwap.t) :
  same_terms a (VanillaSwap.price_with curve a).2.
Proof.
  unfold VanillaSwap.price_with.
  destruct (VanillaSwap.new_instrument a) as [inst|e]; simpl.
  - exists (VanillaSwap.floatingLegIborIndex a), (Some (ql.setPricingEngine inst curve)).
    split; [destruct a; reflexivity | apply same_index_refl].
  - apply same_terms_refl.
Qed.

Lemma set_index_same_terms (a : VanillaSwap.t) (i j : ql.IborIndex)
    (curve : ql.ForwardCurve) :
  VanillaSwap.floatingLegIborIndex a = Some i ->
  ql.family i = ql.family j -> ql.tenor i = ql.tenor j ->
  same_terms a (VanillaSwap.set_floatingLegIborIndex a (Some (ql.clone j curve))).
Proof.
  intros Hi Hf Ht. exists (Some (ql.clone j curve)), (VanillaSwap.instrument a).
  split; [destruct a; reflexivity|]. rewrite Hi. simpl. auto.
Qed.

Lemma NPV_calibration_same_terms (x : list Q) (args : list ql.Date * list Q)
    (a : VanillaSwap.t) :
  same_terms a (VanillaSwap.NPV_calibration x args a).2.
Proof.
  unfold VanillaSwap.NPV_calibration.
  destruct (_ ≫= _) as [curve|e]; [|apply same_terms_refl].
  destruct (VanillaSwap.floatingLegIborIndex a) as [i|] eqn:Hi;
    [|apply same_terms_refl].
  eapply same_terms_trans; [|apply price_with_same_terms].
  apply (set_index_same_terms a i i curve Hi); reflexivity.
Qed.

(** What [NPV_calibration] returns is the value on the rebuilt curve. *)
Lemma NPV_calibration_value (x : list Q) (args : list ql.Date * list Q)
    (a : VanillaSwap.t) :
  (VanillaSwap.NPV_calibration x args a).1
  = npv_on_rebuilt_curve a args.1 args.2 x.
Proof.
  unfold VanillaSwap.NPV_calibration, npv_on_rebuilt_curve, np.concatenate.
  simpl. rewrite app_nil_r.
  destruct a as [? ty ? ? ? ? ? ? ? ? fdc ? ? cal ? ? ? ldc ? idx ? ? ?].
  simpl.
  destruct ldc as [dc|]; simpl; [|reflexivity].
  destruct (ql.new_ForwardCurve _ _ _ _) as [curve|e]; simpl; [|reflexivity].
  destruct idx as [i|]; simpl; [|reflexivity].
  unfold VanillaSwap.price_with, VanillaSwap.new_instrument. simpl.
  destruct ty, fdc; reflexivity.
Qed.

(** The value on the rebuilt curve is the same for the object as the
    constructor left it and as earlier valuations left it. *)
Lemma npv_on_rebuilt_curve_same_terms (a b : VanillaSwap.t)
    (grid : list ql.Date) (prefix x : list Q) :
  same_terms a b ->
  npv_on_rebuilt_curve b grid prefix x = npv_on_rebuilt_curve a grid prefix x.
Proof.
  intros (i & v & -> & Hi). unfold npv_on_rebuilt_curve.
  destruct a; simpl in *.
  destruct floatingLegIborIndex as [j|], i as [i|]; simpl in Hi; try tauto.
  destruct Hi as [-> ->]. reflexivity.
Qed.

End Valuation_properties.

(** Opens a swap object into its attributes, and runs a valuation method on
    it. *)
Ltac open_swap self :=
  destruct self as [? ty ? ? ? ? ? ? ? ? fdc ? ? cal ? ? ? ldc ? idx ? ? ?].

Ltac run_valuation :=
  unfold VanillaSwap.NPV_calibration, VanillaSwap.NPV, VanillaSwap.price_with,
    VanillaSwap.new_instrument, ql.new_ForwardCurve, np.concatenate;
  simpl; rewrite ?app_nil_r.

(** C3, as the code has it: a valuation call writes to the swap object, and
    to two attributes only. [NPV] always overwrites [floatingLegIborIndex]
    with its argument index linked to the curve of the call;
    [NPV_calibration], once its curve is built and the object has an index,
    overwrites it with that index linked to that curve; the link stays on
    the object. With swap type and day counts in place the call goes on to
    overwrite [instrument] with the instrument built from the attributes,
    that index and the engine on that curve, and returns what the library
    says of it; a call returns a value in no other case. No other attribute
    changes. A second call of the same method with the same inputs returns
    the same and leaves the object as the first call left it. What [NPV]
    returns does not depend on the two attributes; what [NPV_calibration]
    returns depends on them through the family and the tenor of the stored
    index only, which an [NPV_calibration] never changes and an [NPV]
    replaces by those of its argument. *)
Theorem valuation_writes_index_and_instrument `{L : ql.Library}
    (self : VanillaSwap.t) (x : list Q) (args : list ql.Date * list Q)
    (curve : ql.ForwardCurve) (index : ql.IborIndex) :
  let r := VanillaSwap.NPV_calibration x args self in
  let q := VanillaSwap.NPV curve index self in
  (* no other attribute is written *)
  r.2 = VanillaSwap.set_instrument
          (VanillaSwap.set_floatingLegIborIndex self
             (VanillaSwap.floatingLegIborIndex r.2))
          (VanillaSwap.instrument r.2)
  /\ q.2 = VanillaSwap.set_instrument
             (VanillaSwap.set_floatingLegIborIndex self
                (VanillaSwap.floatingLegIborIndex q.2))
             (VanillaSwap.instrument q.2)
  (* what [NPV] writes and returns *)
  /\ VanillaSwap.floatingLegIborIndex q.2 = Some (ql.clone index curve)
  /\ (forall ty fdc ldc,
        VanillaSwap.swapType self = Some ty ->
        VanillaSwap.fixedLegDayCount self = Some fdc ->
        VanillaSwap.floatingLegDayCount self = Some ldc ->
        let inst :=
          ql.mkVanillaSwap ty (VanillaSwap.nominal self)
            (VanillaSwap.fixedLegSchedule self) (VanillaSwap.fixedLegRate self)
            fdc (VanillaSwap.floatingLegSchedule self) (ql.clone index curve)
            (VanillaSwap.floatingLegSpread self) ldc (Some curve) in
        VanillaSwap.instrument q.2 = Some inst
        /\ q.1 = ql.instrument_NPV inst)
  /\ (forall v, q.1 = Return v ->
        exists ty fdc ldc,
          VanillaSwap.swapType self = Some ty
          /\ VanillaSwap.fixedLegDayCount self = Some fdc
          /\ VanillaSwap.floatingLegDayCount self = Some ldc)
  (* what [NPV_calibration] writes and returns *)
  /\ (forall dc h i,
        VanillaSwap.floatingLegDayCount self = Some dc ->
        ql.new_ForwardCurve args.1 (args.2 ++ x) dc
          (VanillaSwap.floatingLegCalendar self) = Return h ->
        VanillaSwap.floatingLegIborIndex self = Some i ->
        VanillaSwap.floatingLegIborIndex r.2 = Some (ql.clone i h)
        /\ forall ty fdc,
             VanillaSwap.swapType self = Some ty ->
             VanillaSwap.fixedLegDayCount self = Some fdc ->
             let inst :=
               ql.mkVanillaSwap ty (VanillaSwap.nominal self)
                 (VanillaSwap.fixedLegSchedule self)
                 (VanillaSwap.fixedLegRate self) fdc
                 (VanillaSwap.floatingLegSchedule self) (ql.clone i h)
                 (VanillaSwap.floatingLegSpread self) dc (Some h) in
             VanillaSwap.instrument r.2 = Some inst
             /\ r.1 = ql.instrument_NPV inst)
  /\ (forall v, r.1 = Return v ->
        exists dc h i ty fdc,
          VanillaSwap.floatingLegDayCount self = Some dc
          /\ ql.new_ForwardCurve args.1 (args.2 ++ x) dc
               (VanillaSwap.floatingLegCalendar self) = Return h
          /\ VanillaSwap.floatingLegIborIndex self = Some i
          /\ VanillaSwap.swapType self = Some ty
          /\ VanillaSwap.fixedLegDayCount self = Some fdc)
  (* the same call again *)
  /\ VanillaSwap.NPV_calibration x args r.2 = r
  /\ VanillaSwap.NPV curve index q.2 = q
  (* what the value depends on *)
  /\ (forall i v,
        (VanillaSwap.NPV curve index
           (VanillaSwap.set_instrument
              (VanillaSwap.set_floatingLegIborIndex self i) v)).1 = q.1)
  /\ (forall self', same_terms self self' ->
        (VanillaSwap.NPV_calibration x args self').1 = r.1
        /\ (VanillaSwap.NPV curve index self').1 = q.1)
  /\ (forall x' args',
        (VanillaSwap.NPV_calibration x args
           (VanillaSwap.NPV_calibration x' args' self).2).1 = r.1)
  /\ (forall curve' index',
        (VanillaSwap.NPV_calibration x args
           (VanillaSwap.NPV curve' index' self).2).1
        = (VanillaSwap.NPV_calibration x args
             (VanillaSwap.set_floatingLegIborIndex self (Some index'))).1).
Proof.
  intros r q. subst r q.
  split; [|split; [|split; [|split; [|split; [|split; [|split; [|split;
    [|split; [|split; [|split; [|split]]]]]]]]]]].
  - destruct args as [grid prefix]. open_swap self. run_valuation.
    destruct ldc as [dc|]; simpl; [|reflexivity].
    destruct (ql.ForwardCurve_accepts _ _ _ _); simpl; [|reflexivity].
    destruct idx as [i|]; simpl; [|reflexivity].
    destruct ty, fdc; reflexivity.
  - open_swap self. run_valuation. destruct ty, fdc, ldc; reflexivity.
  - open_swap self. run_valuation. destruct ty, fdc, ldc; reflexivity.
  - intros t fd ld. open_swap self. run_valuation.
    intros -> -> ->. split; reflexivity.
  - intros v. open_swap self. run_valuation.
    destruct ty as [t|], fdc as [fd|], ldc as [ld|]; simpl; try discriminate.
    intros _. now exists t, fd, ld.
  - intros dc h i. destruct args as [grid prefix]. open_swap self.
    run_valuation. intros -> Hh ->. simpl.
    destruct (ql.ForwardCurve_accepts _ _ _ _); simpl; [|discriminate].
    injection Hh as <-. split; [destruct ty, fdc; reflexivity|].
    intros t fd -> ->. split; reflexivity.
  - intros v. destruct args as [grid prefix]. open_swap self. run_valuation.
    destruct ldc as [dc|]; simpl; [|discriminate].
    destruct (ql.ForwardCurve_accepts _ _ _ _) eqn:Hacc; simpl;
      [|discriminate].
    destruct idx as [i|]; simpl; [|discriminate].
    destruct ty as [t|], fdc as [fd|]; simpl; try discriminate.
    intros _. exists dc. eexists. exists i, t, fd.
    split; [reflexivity|]. split; [rewrite Hacc; reflexivity|].
    split; [reflexivity|]. split; reflexivity.
  - destruct args as [grid prefix]. open_swap self. run_valuation.
    destruct ldc as [dc|]; simpl; [|reflexivity].
    destruct (ql.ForwardCurve_accepts _ _ _ _) eqn:Hacc; simpl;
      [|now rewrite Hacc].
    destruct idx as [i|]; simpl; [|now rewrite Hacc].
    destruct ty, fdc; simpl; now rewrite Hacc.
  - open_swap self. run_valuation. destruct ty, fdc, ldc; reflexivity.
  - intros i v. open_swap self. run_valuation.
    destruct ty, fdc, ldc; reflexivity.
  - intros self' Hsame. split.
    + rewrite !NPV_calibration_value.
      now apply npv_on_rebuilt_curve_same_terms.
    + destruct Hsame as (i & v & -> & _).
      open_swap self. run_valuation. destruct ty, fdc, ldc; reflexivity.
  - intros x' args'. rewrite !NPV_calibration_value.
    apply npv_on_rebuilt_curve_same_terms, NPV_calibration_same_terms.
  - intros curve' index'. rewrite !NPV_calibration_value.
    apply npv_on_rebuilt_curve_same_terms.
    exists (Some (ql.clone index' curve')),
      (VanillaSwap.instrument (VanillaSwap.NPV curve' index' self).2).
    split; [|destruct self; simpl; auto].
    open_swap self. run_valuation. destruct ty, fdc, ldc; reflexivity.
Qed.

(** The first constraint evaluation of the reference run writes to the 2Y
    swap (against C3 as stated): the object is not what it was, it has an
    instrument it did not have, and its index is linked to the curve of that
    evaluation. *)
Lemma NPV_calibration_writes_to_the_swap :
  head reference_swaps = Some swap_2Y
  /\ @swaps sample_library = Return reference_swaps
  /\ @dates sample_library = Return reference_dates
  /\ (let after :=
        (VanillaSwap.NPV_calibration (H := sample_library)
           initialForwardGuesses (reference_dates, initialMarketData)
           swap_2Y).2 in
      after <> swap_2Y
      /\ VanillaSwap.instrument swap_2Y = None
      /\ VanillaSwap.instrument after <> None
      /\ ql.forwardingTermStructure
           <$> VanillaSwap.floatingLegIborIndex swap_2Y = Some None
      /\ ql.forwardingTermStructure
           <$> VanillaSwap.floatingLegIborIndex after
         = Some (Some (ql.mkForwardCurve reference_dates
                         (initialMarketData ++ initialForwardGuesses)
                         ql.Actual360 ql.TARGET))).
Proof.
  split; [reflexivity|]. split; [apply (@swaps_built sample_library eq_refl)|].
  split; [apply dates_built|].
  assert (Hinst : VanillaSwap.instrument
                    (VanillaSwap.NPV_calibration (H := sample_library)
                       initialForwardGuesses
                       (reference_dates, initialMarketData) swap_2Y).2
                  <> None)
    by (vm_compute; discriminate).
  split; [|split; [reflexivity|split; [exact Hinst|split]]].
  - intros E. apply Hinst. rewrite E. reflexivity.
  - reflexivity.
  - vm_compute. reflexivity.
Qed.

Lemma valuation_writes_index_and_instrument_witness :
  let h := ql.mkForwardCurve reference_dates
             (initialMarketData ++ initialForwardGuesses) ql.Actual360
             ql.TARGET in
  let r := VanillaSwap.NPV_calibration (H := sample_library)
             initialForwardGuesses (reference_dates, initialMarketData)
             swap_2Y in
  (exists v, r.1 = Return v /\ (v == 31450)%Q)
  /\ ql.forwardingTermStructure <$> VanillaSwap.floatingLegIborIndex swap_2Y
     = Some None
  /\ ql.forwardingTermStructure <$> VanillaSwap.floatingLegIborIndex r.2
     = Some (Some h)
  /\ VanillaSwap.instrument swap_2Y = None
  /\ ql.pricingEngine <$> VanillaSwap.instrument r.2 = Some (Some h)
  /\ VanillaSwap.NPV_calibration (H := sample_library) initialForwardGuesses
       (reference_dates, initialMarketData) r.2 = r.
Proof.
  intros h r.
  destruct (@valuation_writes_index_and_instrument sample_library swap_2Y
              initialForwardGuesses (reference_dates, initialMarketData) h
              (ql.mkIborIndex ql.USDLibor (ql.mkPeriod 3 ql.Months) None))
    as (_ & _ & _ & _ & _ & Hwrites & Hreturns & Hagain & _).
  destruct r.1 as [v|e] eqn:Hv; [|vm_compute in Hv; discriminate].
  split.
  { exists v. split; [reflexivity|].
    vm_compute in Hv. injection Hv as <-. reflexivity. }
  split; [reflexivity|].
  destruct (Hreturns v Hv) as (dc & h' & i & ty & fdc & Hdc & Hh & Hi & Hty
                               & Hfdc).
  assert (Hh' : Return (A := ql.ForwardCurve) h' = Return h).
  { injection Hdc as <-. rewrite <- Hh. vm_compute. reflexivity. }
  injection Hh' as ->.
  destruct (Hwrites dc h i Hdc Hh Hi) as [Hidx Hinst].
  destruct (Hinst ty fdc Hty Hfdc) as [Hstored _].
  fold r in Hidx, Hstored. split; [now rewrite Hidx|].
  split; [reflexivity|]. split; [now rewrite Hstored | exact Hagain].
Defined.

(** The same [NPV_calibration] call returns another value once an [NPV]
    with an index of another family has run on the object: the stored index
    is the one [NPV] left. *)
Example NPV_calibration_after_NPV_with_another_index :
  let h := ql.mkForwardCurve reference_dates
             (initialMarketData ++ initialForwardGuesses) ql.Actual360
             ql.TARGET in
  let before :=
    VanillaSwap.NPV_calibration (H := family_priced_library)
      initialForwardGuesses (reference_dates, initialMarketData) swap_2Y in
  let between :=
    VanillaSwap.NPV (H := family_priced_library) h
      (ql.mkIborIndex ql.Euribor (ql.mkPeriod 6 ql.Months) None) swap_2Y in
  let after :=
    VanillaSwap.NPV_calibration (H := family_priced_library)
      initialForwardGuesses (reference_dates, initialMarketData) between.2 in
  @swaps family_priced_library = Return reference_swaps
  /\ before.1 = Return 1%Q /\ between.1 = Return 0%Q /\ after.1 = Return 0%Q
  /\ ql.family <$> VanillaSwap.floatingLegIborIndex swap_2Y = Some ql.USDLibor
  /\ ql.family <$> VanillaSwap.floatingLegIborIndex between.2
     = Some ql.Euribor.
Proof.
  split; [apply (@swaps_built family_priced_library eq_refl)|].
  repeat split; vm_compute; reflexivity.
Qed.

(** ** Constraints *)

Section Constraint_properties.
Context `{L : ql.Library}.
Variables (sws : list VanillaSwap.t) (grid : list ql.Date).

Lemma constraints_of_lookup (k : nat) :
  constraints_of sws grid !! k
  = (fun _ => mkConstraint "eq" k (grid, initialMarketData)) <$> sws !! k.
Proof. unfold constraints_of. apply list_lookup_imap. Qed.

(** Whatever the solver has evaluated so far, every swap object of the
    store is still the swap the constructor built, up to the two
    attributes a valuation writes. *)
Lemma evolved_same_terms (store : list VanillaSwap.t) :
  evolved (constraints_of sws grid) sws store -> Forall2 same_terms sws store.
Proof.
  induction 1 as [|store c x Hev IH Hc].
  - apply Forall_Forall2_diag, Forall_forall. intros a _.
    apply same_terms_refl.
  - unfold call. destruct (store !! fun_self c) as [self|] eqn:Hk; simpl;
      [|exact IH].
    destruct (Forall2_lookup_r _ _ _ _ _ IH Hk) as (a & Ha & Hsame).
    rewrite <- (list_insert_id sws (fun_self c) a Ha).
    apply Forall2_insert; [exact IH|].
    eapply same_terms_trans; [exact Hsame|].
    apply NPV_calibration_same_terms.
Qed.

(** The [k]-th constraint, evaluated at [x] in any store the solver can
    have brought about, returns the value of the [k]-th swap on the curve
    rebuilt from [x]. *)
Lemma call_value (store : list VanillaSwap.t) (k : nat) (c : Constraint)
    (swap : VanillaSwap.t) (x : list Q) :
  evolved (constraints_of sws grid) sws store ->
  constraints_of sws grid !! k = Some c -> sws !! k = Some swap ->
  (call c x store).1 = npv_on_rebuilt_curve swap grid initialMarketData x.
Proof.
  intros Hev Hc Hk. rewrite constraints_of_lookup, Hk in Hc.
  injection Hc as <-. unfold call. simpl.
  destruct (Forall2_lookup_l _ _ _ _ _ (evolved_same_terms store Hev) Hk)
    as (self & -> & Hsame).
  simpl. rewrite NPV_calibration_value. simpl.
  now apply npv_on_rebuilt_curve_same_terms.
Qed.

End Constraint_properties.

(** C5: the problem has one equality constraint per calibration swap, the
    [k]-th entry holding [NPV_calibration] of the [k]-th swap with the knot
    grid and the market-rate prefix as arguments; evaluated at [x] at any
    point of the solver's run, it builds the curve from the prefix followed
    by [x] on the knot grid and returns the value of that swap on it. *)
Theorem swapConstraints_one_per_swap `{L : ql.Library} :
  ql.Period_of_string "3M" = Return (ql.mkPeriod 3 ql.Months) ->
  exists sws grid cs m,
    swaps = Return sws /\ dates = Return grid /\ swapConstraints = Return cs
    /\ model = Return m /\ constraints m = cs
    /\ List.length sws = List.length swapIDs
    /\ List.length cs = List.length sws
    /\ forall k swap,
         sws !! k = Some swap ->
         exists c,
           cs !! k = Some c
           /\ type c = "eq" /\ fun_self c = k
           /\ args c = (grid, initialMarketData)
           /\ (forall x,
                 (VanillaSwap.NPV_calibration x (args c) swap).1
                 = npv_on_rebuilt_curve swap grid initialMarketData x)
           /\ (forall store x,
                 evolved cs sws store ->
                 (call c x store).1
                 = npv_on_rebuilt_curve swap grid initialMarketData x).
Proof.
  intros Hp.
  exists reference_swaps, reference_dates,
    (constraints_of reference_swaps reference_dates),
    (mkMinimize ObjectiveFunction initialForwardGuesses
       (initialMarketData, scalingFactor) "SLSQP" {["maxiter" := 500]}
       (constraints_of reference_swaps reference_dates)).
  split; [apply (swaps_built Hp)|]. split; [apply dates_built|].
  split; [apply (swapConstraints_built Hp)|].
  split; [apply (model_built Hp)|].
  split; [reflexivity|]. split; [reflexivity|].
  split; [unfold constraints_of; apply length_imap|].
  generalize reference_swaps reference_dates. intros sws grid k swap Hk.
  exists (mkConstraint "eq" k (grid, initialMarketData)).
  assert (Hc : constraints_of sws grid !! k
               = Some (mkConstraint "eq" k (grid, initialMarketData)))
    by (now rewrite constraints_of_lookup, Hk).
  split; [exact Hc|]. repeat split.
  - intros x. apply NPV_calibration_value.
  - intros store x Hev. now apply (call_value sws grid store k).
Qed.

Lemma swapConstraints_one_per_swap_witness :
  ql.Period_of_string (Library := sample_library) "3M"
  = Return (ql.mkPeriod 3 ql.Months)
  /\ exists cs, @swapConstraints sample_library = Return cs
                /\ List.length cs = 14%nat.
Proof.
  split; [reflexivity|].
  destruct (@swapConstraints_one_per_swap sample_library eq_refl)
    as (sws & grid & cs & m & _ & _ & Hcs & _ & _ & Hn & Hlen & _).
  exists cs. split; [exact Hcs|]. rewrite Hlen, Hn. reflexivity.
Defined.

(** * Further properties of the code *)

(** ** More on the dispatchers *)

Lemma case_variant_of_upper_char (a b : ascii) :
  upper_char a = upper_char b -> case_variant a b.
Proof.
  assert (Hlt : forall x, (code x < 256)%N) by (intros x; apply N_ascii_bounded).
  assert (Hcode : forall n, (n < 256)%N -> code (ascii_of_N n) = n)
    by (intros n Hn; now apply N_ascii_embedding).
  pose proof (Hlt a) as Ha. pose proof (Hlt b) as Hb.
  unfold upper_char, islower_char, case_variant.
  destruct (N.leb_spec 97 (code a)), (N.leb_spec (code a) 122),
    (N.leb_spec 97 (code b)), (N.leb_spec (code b) 122); simpl; intros E;
    apply (f_equal code) in E; rewrite ?Hcode in E by lia; lia.
Qed.

Lemma same_up_to_case_of_upper (s1 : string) :
  forall s2, upper s1 = upper s2 -> same_up_to_case s1 s2.
Proof.
  induction s1 as [|a s1 IH]; intros [|b s2]; simpl; try discriminate; auto.
  intros [= Hab Hs]. split; [now apply case_variant_of_upper_char | now apply IH].
Qed.

(** Two strings are equal up to letter casing exactly when [upper] sends them
    to the same string. *)
Lemma same_up_to_case_iff_upper (s1 s2 : string) :
  same_up_to_case s1 s2 <-> upper s1 = upper s2.
Proof.
  split; [apply upper_same_up_to_case | apply same_up_to_case_of_upper].
Qed.

(** Reads a dispatcher both ways: the [if] chain gives an enumerator only on
    its own name, and gives it on that name. *)
Ltac exact_dispatch v :=
  split;
  [ repeat match goal with
           | |- context [String.eqb ?a ?b] =>
               destruct (String.eqb_spec a b) as [E | _];
               [intros [= <-]; exact E |]
           end;
    discriminate
  | intros E; rewrite E; destruct v; reflexivity ].

Lemma to_businessDayConvention_exact (s : string) (v : ql.BusinessDayConvention) :
  Convert.to_businessDayConvention s = Return (Some v)
  <-> upper s = businessDayConvention_name v.
Proof. unfold Convert.to_businessDayConvention. exact_dispatch v. Qed.

Lemma to_swapType_exact (s : string) (v : ql.SwapType) :
  Convert.to_swapType s = Return (Some v) <-> upper s = swapType_name v.
Proof. unfold Convert.to_swapType. exact_dispatch v. Qed.

Lemma to_frequency_exact (s : string) (v : ql.Frequency) :
  Convert.to_frequency s = Return (Some v) <-> upper s = frequency_name v.
Proof. unfold Convert.to_frequency. exact_dispatch v. Qed.

Lemma to_dateGenerationRule_exact (s : string) (v : ql.DateGeneration) :
  Convert.to_dateGenerationRule s = Return (Some v)
  <-> upper s = dateGenerationRule_name v.
Proof. unfold Convert.to_dateGenerationRule. exact_dispatch v. Qed.

Lemma construct_Return {A} (refused : option Exception) (a b : A) :
  ql.construct refused a = Return b -> b = a.
Proof. destruct refused; simpl; [discriminate | now intros [= ->]]. Qed.

Lemma upper_name :
  (forall v, upper (businessDayConvention_name v) = businessDayConvention_name v)
  /\ (forall v, upper (swapType_name v) = swapType_name v)
  /\ (forall v, upper (frequency_name v) = frequency_name v)
  /\ (forall v, upper (dateGenerationRule_name v) = dateGenerationRule_name v)
  /\ (forall v, upper (calendar_name v) = calendar_name v)
  /\ (forall v, upper (dayCounter_name v) = dayCounter_name v).
Proof. repeat split; intros v; destruct v; reflexivity. Qed.

Section Dispatch_properties.
Context `{L : ql.Library}.

Lemma new_Calendar_Return (v c : ql.Calendar) :
  new_Calendar v = Return c -> c = v.
Proof.
  destruct v; simpl; try (now intros [= ->]). apply construct_Return.
Qed.

Lemma new_DayCounter_Return (v d : ql.DayCounter) :
  new_DayCounter v = Return d -> d = v.
Proof.
  destruct v; simpl; try (now intros [= ->]); apply construct_Return.
Qed.

(** On one of its names a dispatcher of objects does what the constructor
    call behind the name does. *)
Lemma to_calendar_on_name (s : string) (v : ql.Calendar) :
  upper s = calendar_name v ->
  Convert.to_calendar s = (c ← new_Calendar v; Return (Some c)).
Proof. intros E. unfold Convert.to_calendar. rewrite E. destruct v; reflexivity. Qed.

Lemma to_dayCounter_on_name (s : string) (v : ql.DayCounter) :
  upper s = dayCounter_name v ->
  Convert.to_dayCounter s = (d ← new_DayCounter v; Return (Some d)).
Proof. intros E. unfold Convert.to_dayCounter. rewrite E. destruct v; reflexivity. Qed.

Lemma to_calendar_cases (s : string) :
  (exists v, upper s = calendar_name v) \/ Convert.to_calendar s = Return None.
Proof.
  unfold Convert.to_calendar.
  destruct (String.eqb_spec (upper s) "TARGET") as [E|_];
    [left; now exists ql.TARGET|].
  destruct (String.eqb_spec (upper s) "UNITEDSTATES") as [E|_];
    [left; now exists ql.UnitedStates|].
  destruct (String.eqb_spec (upper s) "UNITEDKINGDOM") as [E|_];
    [left; now exists ql.UnitedKingdom|].
  now right.
Qed.

Lemma to_dayCounter_cases (s : string) :
  (exists v, upper s = dayCounter_name v) \/ Convert.to_dayCounter s = Return None.
Proof.
  unfold Convert.to_dayCounter.
  destruct (String.eqb_spec (upper s) "ACTUAL360") as [E|_];
    [left; now exists ql.Actual360|].
  destruct (String.eqb_spec (upper s) "ACTUAL365FIXED") as [E|_];
    [left; now exists ql.Actual365Fixed|].
  destruct (String.eqb_spec (upper s) "ACTUALACTUAL") as [E|_];
    [left; now exists ql.ActualActual|].
  destruct (String.eqb_spec (upper s) "ACTUAL365NOLEAP") as [E|_];
    [left; now exists ql.Actual365NoLeap|].
  destruct (String.eqb_spec (upper s) "BUSINESS252") as [E|_];
    [left; now exists ql.Business252|].
  destruct (String.eqb_spec (upper s) "ONEDAYCOUNTER") as [E|_];
    [left; now exists ql.OneDayCounter|].
  destruct (String.eqb_spec (upper s) "SIMPLEDAYCOUNTER") as [E|_];
    [left; now exists ql.SimpleDayCounter|].
  destruct (String.eqb_spec (upper s) "THIRTY360") as [E|_];
    [left; now exists ql.Thirty360|].
  now right.
Qed.

Lemma to_calendar_exact (s : string) :
  (forall v, Convert.to_calendar s = Return (Some v)
             <-> upper s = calendar_name v /\ new_Calendar v = Return v)
  /\ (forall e, Convert.to_calendar s = Raise e
                <-> exists v, upper s = calendar_name v
                              /\ new_Calendar v = Raise e).
Proof.
  split; [intros v | intros e]; split.
  - destruct (to_calendar_cases s) as [[w E] | N]; [|rewrite N; discriminate].
    rewrite (to_calendar_on_name s w E).
    destruct (new_Calendar w) as [c|e] eqn:Hw; simpl; [|discriminate].
    intros [= <-]. pose proof (new_Calendar_Return w c Hw) as ->. now split.
  - intros [E Hv]. now rewrite (to_calendar_on_name s v E), Hv.
  - destruct (to_calendar_cases s) as [[w E] | N]; [|rewrite N; discriminate].
    rewrite (to_calendar_on_name s w E).
    destruct (new_Calendar w) as [c|e'] eqn:Hw; simpl; [discriminate|].
    intros [= <-]. now exists w.
  - intros (v & E & Hv). now rewrite (to_calendar_on_name s v E), Hv.
Qed.

Lemma to_dayCounter_exact (s : string) :
  (forall v, Convert.to_dayCounter s = Return (Some v)
             <-> upper s = dayCounter_name v /\ new_DayCounter v = Return v)
  /\ (forall e, Convert.to_dayCounter s = Raise e
                <-> exists v, upper s = dayCounter_name v
                              /\ new_DayCounter v = Raise e).
Proof.
  split; [intros v | intros e]; split.
  - destruct (to_dayCounter_cases s) as [[w E] | N]; [|rewrite N; discriminate].
    rewrite (to_dayCounter_on_name s w E).
    destruct (new_DayCounter w) as [d|e] eqn:Hw; simpl; [|discriminate].
    intros [= <-]. pose proof (new_DayCounter_Return w d Hw) as ->. now split.
  - intros [E Hv]. now rewrite (to_dayCounter_on_name s v E), Hv.
  - destruct (to_dayCounter_cases s) as [[w E] | N]; [|rewrite N; discriminate].
    rewrite (to_dayCounter_on_name s w E).
    destruct (new_DayCounter w) as [d|e'] eqn:Hw; simpl; [discriminate|].
    intros [= <-]. now exists w.
  - intros (v & E & Hv). now rewrite (to_dayCounter_on_name s v E), Hv.
Qed.

(** X1: each one-word dispatcher is exact. The four dispatchers of
    enumerators return an enumerator on the strings that are its identifier
    up to letter casing, and on no other string. The two dispatchers of
    objects, [to_calendar] and [to_dayCounter], do on such a string what the
    constructor call behind the identifier does: they return the object
    where the library returns it and raise the library's exception where it
    refuses the call without arguments; they return an object on no other
    string, and they raise on no other string. So the names of a category
    never shadow one another, and a string names at most one enumerator. *)
Theorem Convert_dispatch_exact (s : string) :
  isascii s = true ->
  (forall v, Convert.to_businessDayConvention s = Return (Some v)
             <-> same_up_to_case s (businessDayConvention_name v))
  /\ (forall v, Convert.to_swapType s = Return (Some v)
                <-> same_up_to_case s (swapType_name v))
  /\ (forall v, Convert.to_frequency s = Return (Some v)
                <-> same_up_to_case s (frequency_name v))
  /\ (forall v, Convert.to_dateGenerationRule s = Return (Some v)
                <-> same_up_to_case s (dateGenerationRule_name v))
  /\ (forall v, same_up_to_case s (calendar_name v) ->
                Convert.to_calendar s = (c ← new_Calendar v; Return (Some c)))
  /\ (forall v, Convert.to_calendar s = Return (Some v)
                <-> same_up_to_case s (calendar_name v)
                    /\ new_Calendar v = Return v)
  /\ (forall e, Convert.to_calendar s = Raise e
                <-> exists v, same_up_to_case s (calendar_name v)
                              /\ new_Calendar v = Raise e)
  /\ (forall v, same_up_to_case s (dayCounter_name v) ->
                Convert.to_dayCounter s
                = (d ← new_DayCounter v; Return (Some d)))
  /\ (forall v, Convert.to_dayCounter s = Return (Some v)
                <-> same_up_to_case s (dayCounter_name v)
                    /\ new_DayCounter v = Return v)
  /\ (forall e, Convert.to_dayCounter s = Raise e
                <-> exists v, same_up_to_case s (dayCounter_name v)
                              /\ new_DayCounter v = Raise e).
Proof.
  intros _.
  destruct upper_name as (Hb & Ht & Hf & Hr & Hc & Hd).
  destruct (to_calendar_exact s) as [Hcal_ret Hcal_raise].
  destruct (to_dayCounter_exact s) as [Hdc_ret Hdc_raise].
  split; [|split; [|split; [|split; [|split; [|split; [|split; [|split;
    [|split]]]]]]]].
  - intros v. now rewrite same_up_to_case_iff_upper, Hb,
      to_businessDayConvention_exact.
  - intros v. now rewrite same_up_to_case_iff_upper, Ht, to_swapType_exact.
  - intros v. now rewrite same_up_to_case_iff_upper, Hf, to_frequency_exact.
  - intros v. now rewrite same_up_to_case_iff_upper, Hr,
      to_dateGenerationRule_exact.
  - intros v Hv. apply to_calendar_on_name.
    apply same_up_to_case_iff_upper in Hv. now rewrite Hv, Hc.
  - intros v. now rewrite same_up_to_case_iff_upper, Hc, Hcal_ret.
  - intros e. rewrite Hcal_raise. split; intros (v & Hv & Hn); exists v;
      (split; [|exact Hn]).
    + apply same_up_to_case_iff_upper. now rewrite Hc.
    + apply same_up_to_case_iff_upper in Hv. now rewrite Hv, Hc.
  - intros v Hv. apply to_dayCounter_on_name.
    apply same_up_to_case_iff_upper in Hv. now rewrite Hv, Hd.
  - intros v. now rewrite same_up_to_case_iff_upper, Hd, Hdc_ret.
  - intros e. rewrite Hdc_raise. split; intros (v & Hv & Hn); exists v;
      (split; [|exact Hn]).
    + apply same_up_to_case_iff_upper. now rewrite Hd.
    + apply same_up_to_case_iff_upper in Hv. now rewrite Hv, Hd.
Qed.

End Dispatch_properties.

Lemma Convert_dispatch_exact_witness :
  isascii "Semiannual" = true
  /\ Convert.to_frequency "Semiannual" = Return (Some ql.Semiannual)
  /\ Convert.to_calendar (H := sample_library) "UnitedKingdom"
     = Return (Some ql.UnitedKingdom)
  /\ Convert.to_calendar (H := sample_library) "UnitedStates" = Raise TypeError
  /\ Convert.to_dayCounter (H := sample_library) "Actual365NoLeap"
     = Raise AttributeError.
Proof.
  split; [reflexivity|].
  destruct (@Convert_dispatch_exact sample_library "Semiannual" eq_refl)
    as (_ & _ & Hf & _).
  destruct (@Convert_dispatch_exact sample_library "UnitedKingdom" eq_refl)
    as (_ & _ & _ & _ & _ & Huk & _).
  destruct (@Convert_dispatch_exact sample_library "UnitedStates" eq_refl)
    as (_ & _ & _ & _ & _ & _ & Hus & _).
  destruct (@Convert_dispatch_exact sample_library "Actual365NoLeap" eq_refl)
    as (_ & _ & _ & _ & _ & _ & _ & _ & _ & Hnl).
  split; [|split; [|split]].
  - apply Hf. apply same_up_to_case_iff_upper. reflexivity.
  - apply Huk. split; [apply same_up_to_case_iff_upper|]; reflexivity.
  - apply Hus. exists ql.UnitedStates.
    split; [apply same_up_to_case_iff_upper|]; reflexivity.
  - apply Hnl. exists ql.Actual365NoLeap.
    split; [apply same_up_to_case_iff_upper|]; reflexivity.
Defined.

Section IborIndex_properties.
Context `{L : ql.Library}.

Lemma to_iborIndex_family (s s0 : string) (rest : list string)
    (f : ql.IborFamily) :
  split "." s = s0 :: rest -> upper s0 = iborFamily_name f ->
  Convert.to_iborIndex s
  = match rest with
    | [] => Raise IndexError
    | t :: _ =>
        p ← ql.Period_of_string t; i ← ql.new_IborIndex f p; Return (Some i)
    end.
Proof.
  intros Hs Hu. unfold Convert.to_iborIndex. rewrite Hs. simpl. rewrite Hu.
  destruct f, rest; reflexivity.
Qed.

Lemma to_iborIndex_inversion (s : string) (i : ql.IborIndex) :
  Convert.to_iborIndex s = Return (Some i) ->
  exists s0 t rest,
    split "." s = s0 :: t :: rest
    /\ upper s0 = iborFamily_name (ql.family i)
    /\ ql.Period_of_string t = Return (ql.tenor i)
    /\ ql.units (ql.tenor i) <> ql.Days
    /\ ql.forwardingTermStructure i = None.
Proof.
  unfold Convert.to_iborIndex.
  destruct (split "." s) as [|s0 [|t rest]] eqn:Hs; simpl.
  - discriminate.
  - repeat match goal with
           | |- context [String.eqb ?a ?b] => destruct (String.eqb a b)
           end; discriminate.
  - destruct (String.eqb_spec (upper s0) "USDLIBOR") as [E1|_];
      [|destruct (String.eqb_spec (upper s0) "EURIBOR") as [E2|_];
        [|discriminate]].
    all: destruct (ql.Period_of_string t) as [p|] eqn:Hp; simpl;
      [|discriminate].
    all: unfold ql.new_IborIndex; destruct (ql.units p) eqn:Hu; simpl;
      try discriminate.
    all: intros [= <-]; exists s0, t, rest; simpl;
      repeat split; try assumption; rewrite Hu; discriminate.
Qed.

(** X2: [to_iborIndex] on a known family. When the text before the first dot
    is [USDLibor] or [Euribor] up to letter casing, a name without a dot
    raises [IndexError]; otherwise the text between the first and the second
    dot is the tenor, whatever follows is ignored, and the index comes back
    of that family, with that tenor. An index that is returned is linked to
    no curve, as the comment of the function says, and its tenor does not
    count days. *)
Theorem to_iborIndex_outcome (s : string) :
  isascii s = true ->
  (forall s0 rest f,
     split "." s = s0 :: rest -> same_up_to_case s0 (iborFamily_name f) ->
     Convert.to_iborIndex s
     = match rest with
       | [] => Raise IndexError
       | t :: _ =>
           p ← ql.Period_of_string t; i ← ql.new_IborIndex f p;
           Return (Some i)
       end)
  /\ (forall i,
        Convert.to_iborIndex s = Return (Some i) ->
        exists s0 t rest,
          split "." s = s0 :: t :: rest
          /\ same_up_to_case s0 (iborFamily_name (ql.family i))
          /\ ql.Period_of_string t = Return (ql.tenor i)
          /\ ql.units (ql.tenor i) <> ql.Days
          /\ ql.forwardingTermStructure i = None).
Proof.
  intros _. split.
  - intros s0 rest f Hs Hc. apply (to_iborIndex_family s s0 rest f Hs).
    apply same_up_to_case_iff_upper in Hc. rewrite Hc.
    destruct f; reflexivity.
  - intros i Hi.
    destruct (to_iborIndex_inversion s i Hi)
      as (s0 & t & rest & Hs & Hu & Hp & Hd & Hf).
    exists s0, t, rest. repeat split; try assumption.
    apply same_up_to_case_iff_upper. rewrite Hu.
    destruct (ql.family i); reflexivity.
Qed.

End IborIndex_properties.

Lemma to_iborIndex_outcome_witness :
  isascii "euribor" = true
  /\ Convert.to_iborIndex (H := sample_library) "euribor" = Raise IndexError
  /\ Convert.to_iborIndex (H := sample_library) "UsdLibor.3M.x"
     = Return (Some (ql.mkIborIndex ql.USDLibor (ql.mkPeriod 3 ql.Months) None)).
Proof.
  split; [reflexivity|]. split.
  - destruct (@to_iborIndex_outcome sample_library "euribor" eq_refl)
      as [H _].
    apply (H "euribor" [] ql.Euribor eq_refl).
    apply same_up_to_case_iff_upper. reflexivity.
  - destruct (@to_iborIndex_outcome sample_library "UsdLibor.3M.x" eq_refl)
      as [H _].
    rewrite (H "UsdLibor" ["3M"; "x"] ql.USDLibor eq_refl).
    + reflexivity.
    + apply same_up_to_case_iff_upper. reflexivity.
Defined.

(** ** More on [to_date] *)

Lemma all_chars_snoc (p : ascii -> bool) (s : string) (c : ascii) :
  all_chars p (s +:+ String c "") = all_chars p s && p c.
Proof.
  induction s as [|a s IH].
  - rewrite append_empty_l. simpl. now rewrite andb_true_r.
  - rewrite append_cons. simpl. rewrite IH. now rewrite andb_assoc.
Qed.

Lemma flush_tokens (cur t : string) :
  all_chars is_token_char cur = true -> t ∈ flush cur -> is_token t = true.
Proof.
  intros Hcur Ht. destruct cur as [|c cur]; simpl in Ht.
  - inversion Ht.
  - apply list_elem_of_singleton in Ht as ->. unfold is_token.
    now rewrite Hcur.
Qed.

Lemma findall_from_tokens (s : string) :
  forall cur t, all_chars is_token_char cur = true ->
    t ∈ findall_from cur s -> is_token t = true.
Proof.
  induction s as [|c s IH]; intros cur t Hcur Ht; simpl in Ht.
  - now apply (flush_tokens cur).
  - destruct (is_token_char c) eqn:Hc.
    + apply (IH (cur +:+ String c "")); [|exact Ht].
      now rewrite all_chars_snoc, Hcur, Hc.
    + apply elem_of_app in Ht as [Ht | Ht].
      * now apply (flush_tokens cur).
      * now apply (IH "").
Qed.

Lemma findall_from_app_separator (s p t : string) :
  is_separator p = true ->
  forall cur,
    findall_from cur (s +:+ p +:+ t) = (findall_from cur s ++ findall t)%list.
Proof.
  intros Hp. induction s as [|c s IH]; intros cur.
  - rewrite append_empty_l. simpl. now apply findall_from_separator.
  - rewrite append_cons. simpl. destruct (is_token_char c).
    + apply IH.
    + rewrite IH. now rewrite app_assoc.
Qed.

(** X3: every token [to_date] reads is a non-empty run of letters, digits,
    underscores and apostrophes: [int] is never handed an empty string, a
    blank or a sign. *)
Theorem to_date_reads_tokens (s t : string) :
  isascii s = true -> t ∈ findall s -> is_token t = true.
Proof. intros _. now apply findall_from_tokens. Qed.

Lemma to_date_reads_tokens_witness :
  isascii " 2008-02-06" = true /\ is_token "2008" = true.
Proof.
  split; [reflexivity|].
  apply (to_date_reads_tokens " 2008-02-06" "2008" eq_refl).
  apply list_elem_of_here.
Defined.

(** X4: [to_date] reads the first three tokens and nothing else. Separators
    in front of the string, and anything at all after a separator that
    follows the third token, change neither the date nor the error. *)
Theorem to_date_ignores_the_rest (s lead sep tail : string) :
  isascii (lead +:+ s +:+ sep +:+ tail) = true ->
  all_chars (fun c => negb (is_token_char c)) lead = true ->
  is_separator sep = true ->
  (3 <= List.length (findall s))%nat ->
  Convert.to_date (lead +:+ s +:+ sep +:+ tail) = Convert.to_date s.
Proof.
  intros _ Hlead Hsep Hlen. unfold Convert.to_date, findall.
  rewrite (findall_from_gap lead) by assumption.
  rewrite (findall_from_app_separator s sep tail Hsep).
  fold (findall s).
  destruct (findall s) as [|a0 [|a1 [|a2 l]]]; simpl in Hlen; try lia.
  reflexivity.
Qed.

Lemma to_date_ignores_the_rest_witness :
  is_separator " " = true
  /\ (3 <= List.length (findall "2008-02-06"))%nat
  /\ Convert.to_date (" " +:+ "2008-02-06" +:+ " " +:+ "12:30 noon")
     = Convert.to_date "2008-02-06".
Proof.
  split; [reflexivity|]. split; [vm_compute; lia|].
  apply (to_date_ignores_the_rest "2008-02-06" " " " " "12:30 noon");
    first [reflexivity | vm_compute; lia].
Defined.

Lemma digit_char_facts (n : Z) :
  0 <= n <= 9 ->
  isdigit_char (digit_char n) = true
  /\ digit_value (digit_char n) = n
  /\ is_token_char (digit_char n) = true.
Proof.
  intros Hn. rewrite <- (Z2Nat.id n) by lia.
  assert (Hk : (Z.to_nat n <= 9)%nat) by lia.
  revert Hk. generalize (Z.to_nat n) as k. intros k Hk.
  do 10 (destruct k as [|k]; [repeat split; reflexivity|]). lia.
Qed.

Lemma int_from_digit (acc n : Z) (b : bool) (s : string) :
  0 <= n <= 9 ->
  int_from acc b (String (digit_char n) s) = int_from (10 * acc + n) true s.
Proof.
  intros Hn. destruct (digit_char_facts n Hn) as (Hd & Hv & _).
  simpl. now rewrite Hd, Hv.
Qed.

Lemma int_pad2 (n : Z) : 0 <= n <= 99 -> int (pad2 n) = Return n.
Proof.
  intros Hn. unfold int, pad2.
  rewrite !int_from_digit by (Z.div_mod_to_equations; lia). simpl.
  f_equal. Z.div_mod_to_equations; lia.
Qed.

Lemma int_pad4 (n : Z) : 0 <= n <= 9999 -> int (pad4 n) = Return n.
Proof.
  intros Hn. unfold int, pad4, pad2.
  rewrite !int_from_digit by (Z.div_mod_to_equations; lia). simpl.
  f_equal. Z.div_mod_to_equations; lia.
Qed.

Lemma is_token_pad2 (n : Z) : 0 <= n <= 99 -> is_token (pad2 n) = true.
Proof.
  intros Hn. unfold is_token, pad2. simpl.
  destruct (digit_char_facts (n / 10)) as (_ & _ & ->);
    [Z.div_mod_to_equations; lia|].
  destruct (digit_char_facts (n mod 10)) as (_ & _ & ->);
    [Z.div_mod_to_equations; lia|].
  reflexivity.
Qed.

Lemma is_token_pad4 (n : Z) : 0 <= n <= 9999 -> is_token (pad4 n) = true.
Proof.
  intros Hn. unfold is_token, pad4, pad2. simpl.
  destruct (digit_char_facts (n / 1000)) as (_ & _ & ->);
    [Z.div_mod_to_equations; lia|].
  destruct (digit_char_facts (n / 100 mod 10)) as (_ & _ & ->);
    [Z.div_mod_to_equations; lia|].
  destruct (digit_char_facts (n mod 100 / 10)) as (_ & _ & ->);
    [Z.div_mod_to_equations; lia|].
  destruct (digit_char_facts (n mod 100 mod 10)) as (_ & _ & ->);
    [Z.div_mod_to_equations; lia|].
  reflexivity.
Qed.

Lemma monthDictionary_pad2 (m : Z) :
  1 <= m <= 12 -> Convert.monthDictionary !! pad2 m = Some m.
Proof.
  intros Hm. rewrite <- (Z2Nat.id m) by lia.
  assert (Hk : (1 <= Z.to_nat m <= 12)%nat) by lia.
  revert Hk. generalize (Z.to_nat m) as k. intros k Hk.
  destruct k as [|k]; [lia|].
  do 12 (destruct k as [|k]; [vm_compute; reflexivity|]). lia.
Qed.

Lemma monthLength_le_31 (m y : Z) : ql.monthLength m y <= 31.
Proof.
  unfold ql.monthLength.
  repeat match goal with
         | |- context [if ?b then _ else _] => destruct b
         end; lia.
Qed.

(** X5: writing and reading a date. Every date the library accepts, written
    ['yyyy-mm-dd'] with zero-padded fields as the comment of [to_date] asks,
    is read back as itself. *)
Theorem to_date_isoformat (x : ql.Date) :
  ql.valid_ymd (ql.dayOfMonth x) (ql.month x) (ql.year x) = true ->
  Convert.to_date (isoformat x) = Return x.
Proof.
  destruct x as [d m y]. simpl. intros Hv.
  pose proof Hv as Hv'. unfold ql.valid_ymd in Hv'.
  repeat (apply andb_prop in Hv' as [Hv' ?]).
  repeat match goal with
         | H : (_ <=? _) = true |- _ => apply Z.leb_le in H
         end.
  pose proof (monthLength_le_31 m y).
  unfold Convert.to_date, isoformat. simpl.
  rewrite (findall_three (pad4 y) "-" (pad2 m) "-" (pad2 d));
    try reflexivity;
    try (apply is_token_pad4; lia); try (apply is_token_pad2; lia).
  simpl. rewrite (int_pad2 d) by lia. simpl.
  unfold dict_getitem. rewrite (monthDictionary_pad2 m) by lia. simpl.
  rewrite (int_pad4 y) by lia. simpl.
  unfold ql.new_Date. now rewrite Hv.
Qed.

Lemma to_date_isoformat_witness :
  ql.valid_ymd 29 2 2008 = true
  /\ isoformat (ql.mkDate 29 2 2008) = "2008-02-29"
  /\ Convert.to_date (isoformat (ql.mkDate 29 2 2008))
     = Return (ql.mkDate 29 2 2008).
Proof.
  split; [reflexivity|]. split; [reflexivity|].
  apply (to_date_isoformat (ql.mkDate 29 2 2008)). reflexivity.
Defined.

(** ** The constructor *)

Lemma bind_Return {A B} (m : result A) (k : A -> result B) (b : B) :
  m ≫= k = Return b -> exists a, m = Return a /\ k a = Return b.
Proof. destruct m as [a|e]; simpl; [eauto | discriminate]. Qed.

Lemma need_Return {A} (o : option A) (a : A) :
  VanillaSwap.need o = Return a -> o = Some a.
Proof. destruct o; simpl; [now intros [= ->] | discriminate]. Qed.

Section Constructor_properties.
Context `{L : ql.Library}.

Lemma init_inversion ID st nominal start maturity ff fc fconv frule frate fdc
    feom lf lc lconv lrule lspread ldc leom lidx (self : VanillaSwap.t) :
  VanillaSwap.init ID st nominal start maturity ff fc fconv frule frate fdc
    feom lf lc lconv lrule lspread ldc leom lidx = Return self ->
  constructed ID st nominal start maturity ff fc fconv frule frate fdc
    feom lf lc lconv lrule lspread ldc leom lidx self.
Proof.
  unfold VanillaSwap.init. intros H.
  repeat match type of H with
         | _ ≫= _ = Return _ =>
             let a := fresh "a" in let E := fresh "E" in
             apply bind_Return in H as (a & E & H)
         end.
  repeat match goal with
         | E : _ ≫= _ = Return _ |- _ =>
             let a := fresh "f" in let E' := fresh "E" in
             apply bind_Return in E as (a & E' & E)
         | E : VanillaSwap.need _ = Return _ |- _ => apply need_Return in E
         | E : Return _ = Return _ |- _ => injection E as E
         end.
  subst. unfold constructed. simpl.
  repeat split; try assumption; try reflexivity; eexists; eauto.
Qed.

End Constructor_properties.

Lemma to_swapType_unknown (s : string) :
  upper s ∉ swapType_names -> Convert.to_swapType s = Return None.
Proof. intros Hn. unfold Convert.to_swapType. fall_through Hn. Qed.

Lemma to_dayCounter_unknown `{L : ql.Library} (s : string) :
  upper s ∉ dayCounter_names -> Convert.to_dayCounter s = Return None.
Proof. intros Hn. unfold Convert.to_dayCounter. fall_through Hn. Qed.

Lemma Return_inj {A} (a b : A) : Return a = Return b -> a = b.
Proof. now intros [= ->]. Qed.

Section Constructor_theorems.
Context `{L : ql.Library}.
Variables (ID st : string) (nominal : Q) (start maturity : string)
  (ff fc fconv frule : string) (frate : Q) (fdc : string) (feom : bool)
  (lf lc lconv lrule : string) (lspread : Q) (ldc : string) (leom : bool)
  (lidx : string).

(** X6: what the constructor checks. It returns a swap object only if both
    date strings were read and the frequency, calendar, convention and rule
    names of both legs were recognized; the object then holds the arguments,
    the conversions of the names, and the two schedules the library builds
    from them, and no instrument. Swap type, day counts and index are not
    checked: they are stored as converted, [None] for an unknown name. *)
Theorem init_postcondition (self : VanillaSwap.t) :
  VanillaSwap.init ID st nominal start maturity ff fc fconv frule frate fdc
    feom lf lc lconv lrule lspread ldc leom lidx = Return self ->
  constructed ID st nominal start maturity ff fc fconv frule frate fdc
    feom lf lc lconv lrule lspread ldc leom lidx self.
Proof. apply init_inversion. Qed.

(** X7: an unknown swap type or day count is found out late. If the
    constructor returns although the swap type name, or the day count name of
    the fixed leg, is none of the known ones, the attribute is [None], [NPV]
    raises [TypeError] on every call and [NPV_calibration] raises on every
    call. With an unknown day count name of the floating leg,
    [NPV_calibration] raises [TypeError] and leaves the object as it was. *)
Theorem unknown_names_fail_at_valuation (self : VanillaSwap.t) :
  VanillaSwap.init ID st nominal start maturity ff fc fconv frule frate fdc
    feom lf lc lconv lrule lspread ldc leom lidx = Return self ->
  (upper st ∉ swapType_names \/ upper fdc ∉ dayCounter_names ->
     (VanillaSwap.swapType self = None
      \/ VanillaSwap.fixedLegDayCount self = None)
     /\ (forall curve index,
           (VanillaSwap.NPV curve index self).1 = Raise TypeError)
     /\ (forall x args,
           raises (VanillaSwap.NPV_calibration x args self).1))
  /\ (upper ldc ∉ dayCounter_names ->
        VanillaSwap.floatingLegDayCount self = None
        /\ (forall curve index,
              (VanillaSwap.NPV curve index self).1 = Raise TypeError)
        /\ (forall x args,
              VanillaSwap.NPV_calibration x args self = (Raise TypeError, self))).
Proof.
  intros Hinit. apply init_inversion in Hinit.
  destruct Hinit as (_ & _ & _ & _ & _ & _ & Hst & _ & _ & _ & _ & _ & _ & Hfdc
                     & _ & _ & _ & _ & Hldc & _).
  split.
  - intros Hunknown.
    assert (Hnone : VanillaSwap.swapType self = None
                    \/ VanillaSwap.fixedLegDayCount self = None).
    { destruct Hunknown as [Hn | Hn].
      - left. rewrite (to_swapType_unknown st Hn) in Hst.
        now apply Return_inj in Hst.
      - right. rewrite (to_dayCounter_unknown fdc Hn) in Hfdc.
        now apply Return_inj in Hfdc. }
    split; [exact Hnone|]. clear Hst Hfdc Hldc Hunknown.
    destruct self as [? ty ? ? ? ? ? ? ? ? fd ? ? cal ? ? ? ld ? idx ? ? ?].
    simpl in Hnone. split.
    + intros curve index.
      unfold VanillaSwap.NPV, VanillaSwap.price_with,
        VanillaSwap.new_instrument. simpl.
      destruct Hnone as [-> | ->]; simpl; [reflexivity|].
      destruct ty; reflexivity.
    + intros x args. unfold raises, VanillaSwap.NPV_calibration,
        VanillaSwap.price_with, VanillaSwap.new_instrument. simpl.
      destruct ld as [dc|]; simpl; [|eexists; reflexivity].
      destruct (ql.new_ForwardCurve _ _ _ _) as [h|e]; simpl;
        [|eexists; reflexivity].
      destruct idx as [i|]; simpl; [|eexists; reflexivity].
      destruct Hnone as [-> | ->]; simpl; [eexists; reflexivity|].
      destruct ty; simpl; eexists; reflexivity.
  - intros Hn. rewrite (to_dayCounter_unknown ldc Hn) in Hldc.
    apply Return_inj in Hldc. split; [now symmetry|].
    clear Hst Hfdc.
    destruct self as [? ty ? ? ? ? ? ? ? ? fd ? ? cal ? ? ? ld ? idx ? ? ?].
    simpl in Hldc. subst ld. split.
    + intros curve index.
      unfold VanillaSwap.NPV, VanillaSwap.price_with,
        VanillaSwap.new_instrument. simpl.
      destruct ty, fd; reflexivity.
    + intros x args. reflexivity.
Qed.

End Constructor_theorems.

Lemma init_postcondition_witness :
  exists self,
    VanillaSwap.init (H := sample_library) "2Y" "Payer" 1000000 "2008-02-06"
      "2010-02-08" "Annual" "Target" "ModifiedFollowing" "Backward" 0.02795
      "Actual360" false "Quarterly" "Target" "ModifiedFollowing" "Backward"
      0.0 "Actual360" false "USDLibor.3M" = Return self
    /\ VanillaSwap.startDate self = ql.mkDate 6 2 2008
    /\ VanillaSwap.instrument self = None.
Proof.
  eexists. split; [vm_compute; reflexivity|].
  match goal with
  | |- VanillaSwap.startDate ?s = _ /\ _ =>
      assert (Hinit : VanillaSwap.init (H := sample_library) "2Y" "Payer"
                        1000000 "2008-02-06" "2010-02-08" "Annual" "Target"
                        "ModifiedFollowing" "Backward" 0.02795 "Actual360"
                        false "Quarterly" "Target" "ModifiedFollowing"
                        "Backward" 0.0 "Actual360" false "USDLibor.3M"
                      = Return s) by (vm_compute; reflexivity)
  end.
  apply (@init_postcondition sample_library) in Hinit.
  destruct Hinit as (_ & _ & _ & _ & _ & _ & _ & Hstart & _ & _ & _ & _ & _
                     & _ & _ & _ & _ & _ & _ & _ & _ & _ & Hinst).
  split.
  - apply Return_inj. rewrite <- Hstart. reflexivity.
  - exact Hinst.
Defined.

Lemma unknown_names_fail_at_valuation_witness :
  (upper "Buyer" ∉ swapType_names)
  /\ exists self,
       VanillaSwap.init (H := sample_library) "2Y" "Buyer" 1000000
         "2008-02-06" "2010-02-08" "Annual" "Target" "ModifiedFollowing"
         "Backward" 0.02795 "Actual360" false "Quarterly" "Target"
         "ModifiedFollowing" "Backward" 0.0 "Actual360" false "USDLibor.3M"
       = Return self
       /\ forall curve index,
            (VanillaSwap.NPV (H := sample_library) curve index self).1
            = Raise TypeError.
Proof.
  assert (Hn : upper "Buyer" ∉ swapType_names).
  { unfold swapType_names. intros Hin.
    repeat (apply elem_of_cons in Hin as [Hin | Hin]; [discriminate|]).
    inversion Hin. }
  split; [exact Hn|].
  eexists. split; [vm_compute; reflexivity|].
  match goal with
  | |- forall c i, (VanillaSwap.NPV c i ?s).1 = _ =>
      assert (Hinit : VanillaSwap.init (H := sample_library) "2Y" "Buyer"
                        1000000 "2008-02-06" "2010-02-08" "Annual" "Target"
                        "ModifiedFollowing" "Backward" 0.02795 "Actual360"
                        false "Quarterly" "Target" "ModifiedFollowing"
                        "Backward" 0.0 "Actual360" false "USDLibor.3M"
                      = Return s) by (vm_compute; reflexivity)
  end.
  destruct (@unknown_names_fail_at_valuation sample_library _ _ _ _ _ _ _ _ _
              _ _ _ _ _ _ _ _ _ _ _ _ Hinit) as [H _].
  destruct (H (or_introl Hn)) as (_ & Hnpv & _). exact Hnpv.
Defined.

(** ** More on valuation *)

Section Valuation_theorems.
Context `{L : ql.Library}.

(** X8: what a failed [NPV_calibration] leaves behind. When the day count of
    the floating leg is missing, the library refuses the curve, or the
    object has no index, the call raises and the object is untouched. When
    the curve is built and the index is there but swap type or fixed-leg day
    count is missing, the call raises [TypeError] after it has relinked the
    index to the new curve: the object is changed, the instrument is not. *)
Theorem NPV_calibration_failure_state (self : VanillaSwap.t) (x : list Q)
    (args : list ql.Date * list Q) :
  (VanillaSwap.floatingLegDayCount self = None ->
     VanillaSwap.NPV_calibration x args self = (Raise TypeError, self))
  /\ (forall dc,
        VanillaSwap.floatingLegDayCount self = Some dc ->
        ql.ForwardCurve_accepts args.1 (args.2 ++ x) dc
          (VanillaSwap.floatingLegCalendar self) = false ->
        VanillaSwap.NPV_calibration x args self = (Raise RuntimeError, self))
  /\ (forall dc,
        VanillaSwap.floatingLegDayCount self = Some dc ->
        ql.ForwardCurve_accepts args.1 (args.2 ++ x) dc
          (VanillaSwap.floatingLegCalendar self) = true ->
        (VanillaSwap.floatingLegIborIndex self = None ->
           VanillaSwap.NPV_calibration x args self
           = (Raise AttributeError, self))
        /\ (forall i,
              VanillaSwap.floatingLegIborIndex self = Some i ->
              VanillaSwap.swapType self = None
              \/ VanillaSwap.fixedLegDayCount self = None ->
              VanillaSwap.NPV_calibration x args self
              = (Raise TypeError,
                 VanillaSwap.set_floatingLegIborIndex self
                   (Some (ql.clone i
                            (ql.mkForwardCurve args.1 (args.2 ++ x) dc
                               (VanillaSwap.floatingLegCalendar self))))))).
Proof.
  destruct self as [? ty ? ? ? ? ? ? ? ? fd ? ? cal ? ? ? ld ? idx ? ? ?].
  destruct args as [grid prefix].
  unfold VanillaSwap.NPV_calibration, VanillaSwap.price_with,
    VanillaSwap.new_instrument, ql.new_ForwardCurve, np.concatenate.
  simpl. rewrite app_nil_r.
  split; [intros ->; reflexivity|].
  split; [intros dc -> Hacc; simpl; rewrite Hacc; reflexivity|].
  intros dc -> Hacc. simpl. rewrite Hacc. simpl.
  split; [intros ->; reflexivity|].
  intros i -> [-> | ->]; simpl; [reflexivity|].
  destruct ty; reflexivity.
Qed.

(** X9: [NPV] replaces the index of the object. After [NPV(curve, index)]
    the object carries [index] linked to [curve], whatever index it had, and
    a later [NPV_calibration] returns what it returns on the object with
    [index] in the place of its own: family and tenor of the constructor's
    index are lost. *)
Theorem NPV_replaces_the_index (self : VanillaSwap.t)
    (curve : ql.ForwardCurve) (index : ql.IborIndex) (x : list Q)
    (args : list ql.Date * list Q) :
  VanillaSwap.floatingLegIborIndex (VanillaSwap.NPV curve index self).2
  = Some (ql.clone index curve)
  /\ (VanillaSwap.NPV_calibration x args (VanillaSwap.NPV curve index self).2).1
     = (VanillaSwap.NPV_calibration x args
          (VanillaSwap.set_floatingLegIborIndex self (Some index))).1.
Proof.
  assert (Hidx : VanillaSwap.floatingLegIborIndex
                   (VanillaSwap.NPV curve index self).2
                 = Some (ql.clone index curve)).
  { destruct self as [? ty ? ? ? ? ? ? ? ? fd ? ? cal ? ? ? ld ? idx ? ? ?].
    unfold VanillaSwap.NPV, VanillaSwap.price_with, VanillaSwap.new_instrument.
    simpl. destruct ty, fd, ld; reflexivity. }
  split; [exact Hidx|].
  rewrite !NPV_calibration_value.
  apply npv_on_rebuilt_curve_same_terms.
  exists (VanillaSwap.floatingLegIborIndex (VanillaSwap.NPV curve index self).2),
    (VanillaSwap.instrument (VanillaSwap.NPV curve index self).2).
  split.
  - destruct self as [? ty ? ? ? ? ? ? ? ? fd ? ? cal ? ? ? ld ? idx ? ? ?].
    unfold VanillaSwap.NPV, VanillaSwap.price_with, VanillaSwap.new_instrument.
    simpl. destruct ty, fd, ld; reflexivity.
  - rewrite Hidx. destruct self; simpl. auto.
Qed.

End Valuation_theorems.

(** ** The repricing at the end of the script *)

Lemma reference_swaps_terms : Forall reference_terms reference_swaps.
Proof. unfold reference_swaps, reference_terms. repeat constructor. Qed.

Lemma reference_swaps_IDs : VanillaSwap.ID <$> reference_swaps = swapIDs.
Proof. reflexivity. Qed.

Lemma same_terms_ID (a b : VanillaSwap.t) :
  same_terms a b -> VanillaSwap.ID b = VanillaSwap.ID a.
Proof. intros (i & v & -> & _). destruct a; reflexivity. Qed.

Lemma same_terms_IDs (l k : list VanillaSwap.t) :
  Forall2 same_terms l k -> VanillaSwap.ID <$> k = VanillaSwap.ID <$> l.
Proof.
  induction 1 as [|a b l k Hab _ IH]; [reflexivity|].
  now rewrite !fmap_cons, (same_terms_ID a b Hab), IH.
Qed.

Section Repricing_properties.
Context `{L : ql.Library}.

(** On a swap with the reference terms the loop body returns the value on
    the curve rebuilt from [x], whatever valuations ran before. *)
Lemma reprice_value (swap self : VanillaSwap.t) (grid : list ql.Date)
    (x : list Q) (h : ql.ForwardCurve) :
  reference_terms swap -> same_terms swap self -> curve grid x = Return h ->
  (reprice h self).1 = npv_on_rebuilt_curve swap grid initialMarketData x.
Proof.
  intros (Hdc & Hcal & Hidx) (i & v & -> & _) Hh.
  unfold curve, forwards, np.concatenate in Hh. simpl in Hh.
  rewrite app_nil_r in Hh.
  destruct swap as [? ty ? ? ? ? ? ? ? ? fd ? ? cal ? ? ? ld ? idx ? ? ?].
  simpl in Hdc, Hcal, Hidx. subst ld cal.
  destruct idx as [j|]; simpl in Hidx; [|tauto]. destruct Hidx as [Hf Ht].
  unfold npv_on_rebuilt_curve. simpl. rewrite Hh. simpl.
  unfold reprice, VanillaSwap.NPV, VanillaSwap.price_with,
    VanillaSwap.new_instrument. simpl.
  destruct ty, fd; simpl; try reflexivity.
  unfold ql.clone. simpl. now rewrite Hf, Ht.
Qed.

Lemma report_of_values (h : ql.ForwardCurve) (store : list VanillaSwap.t)
    (vs : list Q) :
  Forall2 (fun self v => (reprice h self).1 = Return v) store vs ->
  printed (report h store) = zip (VanillaSwap.ID <$> store) vs
  /\ stopped_by (report h store) = None.
Proof.
  induction 1 as [|self v store vs Hv _ [IHp IHs]]; [split; reflexivity|].
  simpl. rewrite Hv. simpl. now rewrite IHp, IHs.
Qed.

(** X10: the value the script reports for a swap is the value of the swap's
    constraint at the returned vector. In the reference run, once the library
    accepts the final curve, the loop body at the end returns for the [k]-th
    swap exactly what the [k]-th constraint returns at [x], in whatever state
    the solver left the swap objects. *)
Theorem final_repricing_is_constraint_value :
  ql.Period_of_string "3M" = Return (ql.mkPeriod 3 ql.Months) ->
  exists sws grid cs,
    swaps = Return sws /\ dates = Return grid /\ swapConstraints = Return cs
    /\ forall x h store k c self,
         curve grid x = Return h ->
         evolved cs sws store ->
         cs !! k = Some c -> store !! k = Some self ->
         (reprice h self).1 = (call c x store).1.
Proof.
  intros Hp.
  exists reference_swaps, reference_dates,
    (constraints_of reference_swaps reference_dates).
  split; [apply (swaps_built Hp)|]. split; [apply dates_built|].
  split; [apply (swapConstraints_built Hp)|].
  generalize reference_swaps_terms.
  generalize reference_swaps reference_dates.
  intros sws grid Hterms x h store k c self Hh Hev Hc Hk.
  pose proof (evolved_same_terms sws grid store Hev) as Hsame.
  destruct (Forall2_lookup_r _ _ _ _ _ Hsame Hk) as (swap & Hswap & Hss).
  rewrite (call_value sws grid store k c swap x Hev Hc Hswap).
  apply reprice_value; try assumption.
  apply (proj1 (Forall_lookup _ _) Hterms k swap Hswap).
Qed.

(** X11: what the final loop prints. In the reference run, if the library
    accepts the final curve and every constraint has a value at [x], the
    loop runs to its end and prints, in the order of the quotes, each swap
    ID with the value of that swap's constraint at [x]. *)
Theorem report_prints_constraint_values :
  ql.Period_of_string "3M" = Return (ql.mkPeriod 3 ql.Months) ->
  exists sws grid cs,
    swaps = Return sws /\ dates = Return grid /\ swapConstraints = Return cs
    /\ forall x h store vs,
         curve grid x = Return h ->
         evolved cs sws store ->
         Forall2 (fun c v => (call c x store).1 = Return v) cs vs ->
         printed (report h store) = zip swapIDs vs
         /\ stopped_by (report h store) = None.
Proof.
  intros Hp.
  exists reference_swaps, reference_dates,
    (constraints_of reference_swaps reference_dates).
  split; [apply (swaps_built Hp)|]. split; [apply dates_built|].
  split; [apply (swapConstraints_built Hp)|].
  rewrite <- reference_swaps_IDs.
  generalize reference_swaps_terms.
  generalize reference_swaps reference_dates.
  intros sws grid Hterms x h store vs Hh Hev Hvs.
  pose proof (evolved_same_terms sws grid store Hev) as Hsame.
  rewrite <- (same_terms_IDs sws store Hsame).
  apply report_of_values.
  apply Forall2_same_length_lookup. split.
  - rewrite <- (Forall2_length _ _ _ Hvs), <- (Forall2_length _ _ _ Hsame).
    unfold constraints_of. now rewrite length_imap.
  - intros k self v Hk Hv.
    destruct (Forall2_lookup_r _ _ _ _ _ Hsame Hk) as (swap & Hswap & Hss).
    destruct (Forall2_lookup_r _ _ _ _ _ Hvs Hv) as (c & Hc & Hcv).
    rewrite <- Hcv.
    rewrite (call_value sws grid store k c swap x Hev Hc Hswap).
    apply reprice_value; try assumption.
    apply (proj1 (Forall_lookup _ _) Hterms k swap Hswap).
Qed.

(** X12: a constraint works on its own swap only. Evaluating a constraint
    leaves every other swap object of the store as it was and keeps the
    store's length; the swap it works on stays the same swap up to the two
    attributes a valuation writes. *)
Theorem call_touches_one_swap (c : Constraint) (x : list Q)
    (store : list VanillaSwap.t) :
  List.length (call c x store).2 = List.length store
  /\ (forall j, j <> fun_self c -> (call c x store).2 !! j = store !! j)
  /\ (forall self,
        store !! fun_self c = Some self ->
        exists self',
          (call c x store).2 !! fun_self c = Some self'
          /\ same_terms self self').
Proof.
  unfold call. destruct (store !! fun_self c) as [self|] eqn:Hk; simpl.
  - split; [apply length_insert|]. split.
    + intros j Hj. now apply list_lookup_insert_ne.
    + intros self0 [= <-]. eexists. split.
      * apply list_lookup_insert_eq. now apply lookup_lt_Some in Hk.
      * apply NPV_calibration_same_terms.
  - split; [reflexivity|]. split; [reflexivity|]. discriminate.
Qed.

End Repricing_properties.

(** ** More on the objective *)














(** ** Witnesses of the valuation theorems *)

Lemma NPV_calibration_failure_state_witness :
  exists self i,
    VanillaSwap.init (H := sample_library) "2Y" "Buyer" 1000000
      "2008-02-06" "2010-02-08" "Annual" "Target" "ModifiedFollowing"
      "Backward" 0.02795 "Actual360" false "Quarterly" "Target"
      "ModifiedFollowing" "Backward" 0.0 "Actual360" false "USDLibor.3M"
    = Return self
    /\ VanillaSwap.floatingLegIborIndex self = Some i
    /\ VanillaSwap.NPV_calibration (H := sample_library) [0.02%Q]
         ([ql.mkDate 6 2 2008; ql.mkDate 6 5 2008], [0.03%Q]) self
       = (Raise TypeError,
          VanillaSwap.set_floatingLegIborIndex self
            (Some (ql.clone i
                     (ql.mkForwardCurve [ql.mkDate 6 2 2008; ql.mkDate 6 5 2008]
                        [0.03%Q; 0.02%Q] ql.Actual360 ql.TARGET)))).
Proof.
  eexists. eexists. split; [vm_compute; reflexivity|].
  split; [reflexivity|].
  match goal with
  | |- VanillaSwap.NPV_calibration ?x ?a ?s = _ =>
      destruct (@NPV_calibration_failure_state sample_library s x a)
        as (_ & _ & H)
  end.
  destruct (H ql.Actual360 eq_refl eq_refl) as [_ H'].
  apply (H' _ eq_refl). left. reflexivity.
Defined.

Lemma final_repricing_is_constraint_value_witness :
  ql.Period_of_string (Library := sample_library) "3M"
  = Return (ql.mkPeriod 3 ql.Months)
  /\ exists h self c,
       @curve sample_library reference_dates initialForwardGuesses = Return h
       /\ reference_swaps !! 0%nat = Some self
       /\ constraints_of reference_swaps reference_dates !! 0%nat = Some c
       /\ (reprice (L := sample_library) h self).1
          = (call (H := sample_library) c initialForwardGuesses
               reference_swaps).1.
Proof.
  split; [reflexivity|].
  destruct (@final_repricing_is_constraint_value sample_library eq_refl)
    as (sws & grid & cs & Hs & Hd & Hc & H).
  rewrite (@swaps_built sample_library eq_refl) in Hs.
  rewrite (@dates_built sample_library) in Hd.
  rewrite (@swapConstraints_built sample_library eq_refl) in Hc.
  apply Return_inj in Hs, Hd, Hc. subst sws grid cs.
  eexists. eexists. eexists.
  split; [vm_compute; reflexivity|].
  split; [reflexivity|]. split; [reflexivity|].
  eapply (H initialForwardGuesses _ reference_swaps 0%nat).
  - vm_compute. reflexivity.
  - constructor.
  - reflexivity.
  - reflexivity.
Defined.

Lemma report_prints_constraint_values_witness :
  ql.Period_of_string (Library := sample_library) "3M"
  = Return (ql.mkPeriod 3 ql.Months)
  /\ exists sws, @swaps sample_library = Return sws.
Proof.
  split; [reflexivity|].
  destruct (@report_prints_constraint_values sample_library eq_refl)
    as (sws & _ & _ & Hs & _).
  now exists sws.
Defined.

(** X17: the two valuation methods agree. On the curve that
    [NPV_calibration] builds from its arguments, [NPV] called with an index
    of the family and tenor of the object's own index returns what
    [NPV_calibration] returns. *)
Theorem NPV_agrees_with_NPV_calibration `{L : ql.Library}
    (self : VanillaSwap.t) (x : list Q) (args : list ql.Date * list Q)
    (dc : ql.DayCounter) (h : ql.ForwardCurve) (i index : ql.IborIndex) :
  VanillaSwap.floatingLegDayCount self = Some dc ->
  ql.new_ForwardCurve args.1 (args.2 ++ x) dc
    (VanillaSwap.floatingLegCalendar self) = Return h ->
  VanillaSwap.floatingLegIborIndex self = Some i ->
  ql.family index = ql.family i -> ql.tenor index = ql.tenor i ->
  (VanillaSwap.NPV h index self).1 = (VanillaSwap.NPV_calibration x args self).1.
Proof.
  destruct self as [? ty ? ? ? ? ? ? ? ? fd ? ? cal ? ? ? ld ? idx ? ? ?].
  destruct args as [grid prefix]. simpl.
  intros -> Hh -> Hf Ht.
  unfold VanillaSwap.NPV_calibration, VanillaSwap.NPV, VanillaSwap.price_with,
    VanillaSwap.new_instrument, np.concatenate. simpl.
  rewrite app_nil_r, Hh. simpl.
  destruct ty, fd; simpl; try reflexivity.
  unfold ql.clone. now rewrite Hf, Ht.
Qed.

Lemma NPV_agrees_with_NPV_calibration_witness :
  VanillaSwap.floatingLegDayCount swap_2Y = Some ql.Actual360
  /\ (VanillaSwap.NPV (H := sample_library)
        (ql.mkForwardCurve reference_dates
           (initialMarketData ++ initialForwardGuesses) ql.Actual360 ql.TARGET)
        (ql.mkIborIndex ql.USDLibor (ql.mkPeriod 3 ql.Months) None)
        swap_2Y).1
     = (VanillaSwap.NPV_calibration (H := sample_library)
          initialForwardGuesses (reference_dates, initialMarketData)
          swap_2Y).1.
Proof.
  split; [reflexivity|].
  apply (@NPV_agrees_with_NPV_calibration sample_library swap_2Y
           initialForwardGuesses (reference_dates, initialMarketData)
           ql.Actual360 _
           (ql.mkIborIndex ql.USDLibor (ql.mkPeriod 3 ql.Months) None));
    first [reflexivity | vm_compute; reflexivity].
Defined.
